(** * The iOS streaming client of myclient: AudioRecorder, AudioPlayback,
      AudioStreamClient, UnityBridge and the two buttons of ContentView

    A shallow embedding of the Swift sources.  Every class becomes a record
    of its stored properties, every method a function on that record.  What
    the methods ask of the operating system (starting an engine, allocating
    a PCM buffer, converting a tap buffer) is answered by an explicit
    [Platform] argument or carried by the input itself, so that each branch
    of each [guard] and each [catch] of the source is a branch here. *)

From Stdlib Require Import PrimFloat Ascii.
From Stdlib.Strings Require Import Byte.
From stdpp Require Import base option list strings gmap.

Local Open Scope N_scope.

(** ** Foundation: bytes, base64, decoded JSON *)

(** [Data] is a byte buffer. *)
Abbreviation Data := (list byte).

Definition byteOf (n : N) : byte :=
  default Byte.x00 (Byte.of_N (n mod 256)).

(** One character of the standard base64 alphabet, as its six bits. *)
Definition sextet (c : ascii) : option N :=
  let n := N_of_ascii c in
  if (65 <=? n) && (n <=? 90) then Some (n - 65)
  else if (97 <=? n) && (n <=? 122) then Some (n - 71)
  else if (48 <=? n) && (n <=? 57) then Some (n + 4)
  else if n =? 43 then Some 62
  else if n =? 47 then Some 63
  else None.

Definition isPad (c : ascii) : bool := N_of_ascii c =? 61.

(** The last group of four characters, which alone may carry padding. *)
Definition lastQuad (a b c d : ascii) : option Data :=
  x ← sextet a; y ← sextet b;
  if isPad c then
    if isPad d then Some [byteOf (x * 4 + y / 16)] else None
  else
    z ← sextet c;
    if isPad d then Some [byteOf (x * 4 + y / 16); byteOf (y * 16 + z / 4)]
    else
      t ← sextet d;
      Some [byteOf (x * 4 + y / 16); byteOf (y * 16 + z / 4); byteOf (z * 64 + t)].

Fixpoint decodeQuads (cs : list ascii) : option Data :=
  match cs with
  | [] => Some []
  | a :: b :: c :: d :: rest =>
      match rest with
      | [] => lastQuad a b c d
      | _ =>
          x ← sextet a; y ← sextet b; z ← sextet c; t ← sextet d;
          tl ← decodeQuads rest;
          Some (byteOf (x * 4 + y / 16) :: byteOf (y * 16 + z / 4)
                  :: byteOf (z * 64 + t) :: tl)
      end
  | _ => None
  end.

(** [Data(base64Encoded:)] with the default options: the whole string must
    be padded standard base64, any other character makes it [nil]. *)
Definition base64Encoded (s : string) : option Data :=
  decodeQuads (String.list_ascii_of_string s).

(** A value stored in a [[String: Any]] dictionary, as far as the client
    looks at it: [as? String] succeeds on [str], [as? Double] on [num];
    [null] is what a [nil] optional becomes when the dictionary is
    encoded; [nested] stands for the values on which both casts fail (an
    array, an inner object), which the client never inspects. *)
Inductive Any :=
  | null
  | str (s : string)
  | num (x : float)
  | nested.

Definition asString (v : option Any) : option string :=
  match v with Some (str s) => Some s | _ => None end.

Definition asDouble (v : option Any) : option float :=
  match v with Some (num x) => Some x | _ => None end.

(** The bytes of an inbound frame are represented by what
    [JSONSerialization.jsonObject(with:)] makes of them: [None] when it
    throws, [Some fragment] when the top-level value is not a dictionary,
    [Some (object d)] otherwise. *)
Inductive Json :=
  | object (d : gmap string Any)
  | fragment.

Abbreviation JsonData := (option Json).

(** [URLSessionWebSocketTask.Message]. *)
Inductive Message :=
  | string_ (text : JsonData)
  | data_ (data : JsonData).

(** ** AVFoundation values *)

Inductive AVAudioCommonFormat :=
  | pcmFormatFloat32 | pcmFormatFloat64 | pcmFormatInt16 | pcmFormatInt32.

Record AVAudioFormat := {
  commonFormat : AVAudioCommonFormat;
  sampleRate : N;
  channels : N;
  interleaved : bool
}.

(** The format both classes build in their initialisers. *)
Definition pcm16Mono16k : AVAudioFormat :=
  {| commonFormat := pcmFormatInt16; sampleRate := 16000; channels := 1;
     interleaved := false |}.

(** A PCM buffer of the canonical format is its Int16 samples of channel 0;
    [frameLength] is their number. *)
Abbreviation AVAudioPCMBuffer := (list Z).

(** [buffer.int16ChannelData] is [nil] unless the buffer holds Int16. *)
Definition int16ChannelData (f : AVAudioFormat) : bool :=
  match commonFormat f with pcmFormatInt16 => true | _ => false end.

(** What the operating system answers to the calls that can fail.
    A failure carries the error's [localizedDescription]. *)
Record Platform := {
  sessionFailure : option string;   (* setCategory / setActive throws *)
  outputFailure : option string;    (* AudioPlayback's engine.start() throws *)
  inputFailure : option string;     (* AudioRecorder's engine.start() throws *)
  converterAvailable : bool;        (* AVAudioConverter(from:to:) is not nil *)
  pcmBufferAvailable : nat -> bool  (* AVAudioPCMBuffer(pcmFormat:frameCapacity:) is not nil *)
}.

(** ** AudioPlayback.swift *)

Module AudioPlayback.

(** [AVAudioPlayerNode], by the three calls the class makes on it:
    [play], [stop] (which also drops what was scheduled) and
    [scheduleBuffer]. *)
Record PlayerNode := {
  isPlaying : bool;
  scheduled : list AVAudioPCMBuffer
}.

Record t := {
  format : option AVAudioFormat;
  started : bool;
  isRunning : bool;       (* engine.isRunning *)
  player : PlayerNode
}.

Definition init : t :=
  {| format := Some pcm16Mono16k; started := false; isRunning := false;
     player := {| isPlaying := false; scheduled := [] |} |}.

(** [func start() throws]: the thrown error, if any, is the second
    component. *)
Definition start (os : Platform) (p : t) : t * option string :=
  if started p then (p, None)
  else if isRunning p then (p, None)
  else match outputFailure os with
       | Some e => (p, Some e)
       | None =>
           ({| format := format p; started := true; isRunning := true;
               player := {| isPlaying := true;
                            scheduled := scheduled (player p) |} |}, None)
       end.

Definition stop (p : t) : t :=
  {| format := format p; started := false; isRunning := false;
     player := {| isPlaying := false; scheduled := [] |} |}.

(** A little-endian Int16 from its two bytes. *)
Definition int16 (lo hi : byte) : Z :=
  let u := Z.of_N (Byte.to_N lo + 256 * Byte.to_N hi) in
  if (u <? 32768)%Z then u else (u - 65536)%Z.

(** [raw.bindMemory(to: Int16.self)]: the whole pairs of bytes. *)
Fixpoint bindMemory (data : Data) : list Z :=
  match data with
  | lo :: hi :: rest => int16 lo hi :: bindMemory rest
  | _ => []
  end.

Definition scheduleBuffer (b : AVAudioPCMBuffer) (p : t) : t :=
  {| format := format p; started := started p; isRunning := isRunning p;
     player := {| isPlaying := isPlaying (player p);
                  scheduled := scheduled (player p) ++ [b] |} |}.

Definition enqueuePcm (os : Platform) (data : Data) (p : t) : t :=
  match format p with
  | None => p
  | Some f =>
      let frameCount := (length data / 2)%nat in
      if negb (pcmBufferAvailable os frameCount) then p
      else if negb (int16ChannelData f) then p
      else scheduleBuffer (take frameCount (bindMemory data)) p
  end.

(** What the output device is fed: the player's schedule, while the
    engine runs and the player plays. *)
Definition rendered (p : t) : list AVAudioPCMBuffer :=
  if isRunning p && isPlaying (player p) then scheduled (player p) else [].

End AudioPlayback.

(** ** AudioRecorder.swift *)

Module AudioRecorder.

Record t := {
  isRunning : bool;        (* engine.isRunning *)
  tapInstalled : bool;     (* a tap sits on bus 0 of the input node *)
  converter : bool;        (* converter != nil *)
  onPcmData : bool;        (* onPcmData != nil; the client only ever
                              passes the closure that calls sendBinary *)
  targetFormat : option AVAudioFormat
}.

Definition init : t :=
  {| isRunning := false; tapInstalled := false; converter := false;
     onPcmData := false; targetFormat := Some pcm16Mono16k |}.

(** [func start(onPcmData:) throws]: the assignments made before a throw
    stay made. *)
Definition start (os : Platform) (r : t) : t * option string :=
  match targetFormat r with
  | None =>
      ({| isRunning := isRunning r; tapInstalled := tapInstalled r;
          converter := converter r; onPcmData := true;
          targetFormat := None |},
       Some "Invalid target format"%string)
  | Some f =>
      let tapped :=
        {| isRunning := isRunning r; tapInstalled := true;
           converter := converterAvailable os; onPcmData := true;
           targetFormat := Some f |} in
      match inputFailure os with
      | Some e => (tapped, Some e)
      | None =>
          ({| isRunning := true; tapInstalled := true;
              converter := converterAvailable os; onPcmData := true;
              targetFormat := Some f |}, None)
      end
  end.

Definition stop (r : t) : t :=
  {| isRunning := false; tapInstalled := false; converter := false;
     onPcmData := false; targetFormat := targetFormat r |}.

(** A buffer handed to the tap block, with what [converter.convert]
    makes of it: [None] when the status is [.error] or an error is set,
    otherwise the Int16 frames written to the output buffer. *)
Record TapBuffer := {
  frameCapacity : nat;
  conversion : option (list Z)
}.

(** The two bytes of an Int16 in memory, low byte first. *)
Definition int16Bytes (s : Z) : Data :=
  [byteOf (Z.to_N (s mod 256)); byteOf (Z.to_N ((s / 256) mod 256))].

(** [handleBuffer]: the data it hands to [onPcmData], if it gets that
    far.  It changes nothing in the recorder. *)
Definition handleBuffer (os : Platform) (buffer : TapBuffer) (r : t)
  : option Data :=
  if negb (converter r) then None
  else match targetFormat r with
  | None => None
  | Some f =>
      if negb (pcmBufferAvailable os (frameCapacity buffer)) then None
      else match conversion buffer with
      | None => None
      | Some frames =>
          if negb (int16ChannelData f) then None
          else if onPcmData r then Some (concat (map int16Bytes frames))
          else None
      end
  end.

End AudioRecorder.

(** ** UnityBridge.swift *)

Module UnityBridge.

(** [updateViseme] is a stub whose body drops its argument.  What is
    kept here is the sequence of values it has been called with: what a
    renderer hooked into it receives. *)
Definition updateViseme (value : float) (calls : list float) : list float :=
  calls ++ [value].

End UnityBridge.

(** ** AudioStreamClient.swift *)

(** The task, by the URL it was made with. *)
Record URLSessionWebSocketTask := { url : string }.

(** A call made on the task. *)
Inductive TaskCall :=
  | resume
  | cancel
  | send_string (payload : gmap string Any)   (* .string(text), by the payload it encodes *)
  | send_data (data : Data)
  | receive.

(** The object's stored properties, followed by what lies outside it: the
    calls made on tasks so far, the calls made on the Unity bridge, and
    the console.  No source file prints or logs, so no function below
    extends [console]. *)
Record World := {
  status : string;
  transcript : string;
  assistantText : string;
  isConnected : bool;
  isRecording : bool;
  visemeValue : float;
  task : option URLSessionWebSocketTask;
  recorder : AudioRecorder.t;
  playback : AudioPlayback.t;
  net : list (URLSessionWebSocketTask * TaskCall);
  unity : list float;
  console : list string
}.

Definition set_status (v : string) (w : World) : World :=
  {| status := v; transcript := transcript w; assistantText := assistantText w;
     isConnected := isConnected w; isRecording := isRecording w;
     visemeValue := visemeValue w; task := task w; recorder := recorder w;
     playback := playback w; net := net w; unity := unity w;
     console := console w |}.

Definition set_transcript (v : string) (w : World) : World :=
  {| status := status w; transcript := v; assistantText := assistantText w;
     isConnected := isConnected w; isRecording := isRecording w;
     visemeValue := visemeValue w; task := task w; recorder := recorder w;
     playback := playback w; net := net w; unity := unity w;
     console := console w |}.

Definition set_assistantText (v : string) (w : World) : World :=
  {| status := status w; transcript := transcript w; assistantText := v;
     isConnected := isConnected w; isRecording := isRecording w;
     visemeValue := visemeValue w; task := task w; recorder := recorder w;
     playback := playback w; net := net w; unity := unity w;
     console := console w |}.

Definition set_isConnected (v : bool) (w : World) : World :=
  {| status := status w; transcript := transcript w;
     assistantText := assistantText w; isConnected := v;
     isRecording := isRecording w; visemeValue := visemeValue w;
     task := task w; recorder := recorder w; playback := playback w;
     net := net w; unity := unity w; console := console w |}.

Definition set_isRecording (v : bool) (w : World) : World :=
  {| status := status w; transcript := transcript w;
     assistantText := assistantText w; isConnected := isConnected w;
     isRecording := v; visemeValue := visemeValue w; task := task w;
     recorder := recorder w; playback := playback w; net := net w;
     unity := unity w; console := console w |}.

Definition set_visemeValue (v : float) (w : World) : World :=
  {| status := status w; transcript := transcript w;
     assistantText := assistantText w; isConnected := isConnected w;
     isRecording := isRecording w; visemeValue := v; task := task w;
     recorder := recorder w; playback := playback w; net := net w;
     unity := unity w; console := console w |}.

Definition set_task (v : option URLSessionWebSocketTask) (w : World) : World :=
  {| status := status w; transcript := transcript w;
     assistantText := assistantText w; isConnected := isConnected w;
     isRecording := isRecording w; visemeValue := visemeValue w; task := v;
     recorder := recorder w; playback := playback w; net := net w;
     unity := unity w; console := console w |}.

Definition set_recorder (v : AudioRecorder.t) (w : World) : World :=
  {| status := status w; transcript := transcript w;
     assistantText := assistantText w; isConnected := isConnected w;
     isRecording := isRecording w; visemeValue := visemeValue w;
     task := task w; recorder := v; playback := playback w; net := net w;
     unity := unity w; console := console w |}.

Definition set_playback (v : AudioPlayback.t) (w : World) : World :=
  {| status := status w; transcript := transcript w;
     assistantText := assistantText w; isConnected := isConnected w;
     isRecording := isRecording w; visemeValue := visemeValue w;
     task := task w; recorder := recorder w; playback := v; net := net w;
     unity := unity w; console := console w |}.

(** A call on task [t], recorded after those already made. *)
Definition call (t : URLSessionWebSocketTask) (c : TaskCall) (w : World) : World :=
  {| status := status w; transcript := transcript w;
     assistantText := assistantText w; isConnected := isConnected w;
     isRecording := isRecording w; visemeValue := visemeValue w;
     task := task w; recorder := recorder w; playback := playback w;
     net := net w ++ [(t, c)]; unity := unity w; console := console w |}.

Definition set_unity (v : list float) (w : World) : World :=
  {| status := status w; transcript := transcript w;
     assistantText := assistantText w; isConnected := isConnected w;
     isRecording := isRecording w; visemeValue := visemeValue w;
     task := task w; recorder := recorder w; playback := playback w;
     net := net w; unity := v; console := console w |}.

Module AudioStreamClient.

Definition init : World :=
  {| status := "Disconnected"; transcript := ""; assistantText := "";
     isConnected := false; isRecording := false; visemeValue := 0%float;
     task := None; recorder := AudioRecorder.init;
     playback := AudioPlayback.init; net := []; unity := [];
     console := [] |}.

(** [sendJson]: every payload the client builds is a flat dictionary of
    strings, numbers and null, which [JSONSerialization] encodes, so the
    [guard] is passed and the text frame is sent. *)
Definition sendJson (t : URLSessionWebSocketTask) (payload : gmap string Any)
    (w : World) : World :=
  call t (send_string payload) w.

(** [sendBinary]: [task?.send(.data(data))]. *)
Definition sendBinary (data : Data) (w : World) : World :=
  match task w with
  | Some t => call t (send_data data) w
  | None => w
  end.

(** The completion handler shared by [sendBinary] and [sendJson]. *)
Definition sendCompletion (error : option string) (w : World) : World :=
  match error with
  | Some e => set_status ("Send failed: " +:+ e) w
  | None => w
  end.

Definition stopRecording (w : World) : World :=
  match task w with
  | None => w
  | Some t =>
      if negb (isRecording w) then w
      else
        let w := set_recorder (AudioRecorder.stop (recorder w)) w in
        let w := set_playback (AudioPlayback.stop (playback w)) w in
        let w := sendJson t {[ "type" := str "audio.stop" ]} w in
        let w := set_isRecording false w in
        set_status "Processing" w
  end.

Definition disconnect (w : World) : World :=
  let w := stopRecording w in
  let w := match task w with Some t => call t cancel w | None => w end in
  let w := set_task None w in
  let w := set_isConnected false w in
  set_status "Disconnected" w.

(** [listen]: [task?.receive { ... }]. *)
Definition listen (w : World) : World :=
  match task w with
  | Some t => call t receive w
  | None => w
  end.

Definition connect (url : string) (w : World) : World :=
  let w := disconnect w in
  let t := {| url := url |} in
  let w := set_task (Some t) w in
  let w := call t resume w in
  let w := set_isConnected true w in
  let w := set_status "Connected" w in
  listen w.

Definition configureAudioSession (os : Platform) (w : World) : World :=
  match sessionFailure os with
  | Some e => set_status ("Audio session error: " +:+ e) w
  | None => w
  end.

Definition audioStart (projectId : string) (avatarId : option string)
  : gmap string Any :=
  list_to_map
    [ ("type", str "audio.start");
      ("projectId", str projectId);
      ("avatarId", match avatarId with Some a => str a | None => null end);
      ("format", str "pcm16");
      ("sampleRate", num 16000);
      ("channels", num 1) ].

Definition startRecording (os : Platform) (projectId : string)
    (avatarId : option string) (w : World) : World :=
  match task w with
  | None => w
  | Some t =>
      let w := set_assistantText "" w in
      let w := set_transcript "" w in
      let w := configureAudioSession os w in
      let w := sendJson t (audioStart projectId avatarId) w in
      match AudioPlayback.start os (playback w) with
      | (p, Some e) =>
          set_status ("Audio start failed: " +:+ e) (set_playback p w)
      | (p, None) =>
          let w := set_playback p w in
          match AudioRecorder.start os (recorder w) with
          | (r, Some e) =>
              set_status ("Audio start failed: " +:+ e) (set_recorder r w)
          | (r, None) =>
              let w := set_recorder r w in
              let w := set_isRecording true w in
              set_status "Recording" w
          end
      end
  end.

Definition handleJson (os : Platform) (data : JsonData) (w : World) : World :=
  match data with
  | Some (object payload) =>
      match asString (payload !! "type") with
      | None => w
      | Some type =>
          if decide (type = "asr.final") then
            let w := set_transcript
                       (default (transcript w) (asString (payload !! "text"))) w in
            set_status "ASR done" w
          else if decide (type = "assistant.delta") then
            let delta := default "" (asString (payload !! "text")) in
            set_assistantText (assistantText w +:+ delta) w
          else if decide (type = "assistant.done") then
            set_status "Reply done" w
          else if decide (type = "tts.start") then
            set_status "Speaking" w
          else if decide (type = "tts.audio") then
            match asString (payload !! "data") with
            | None => w
            | Some base64 =>
                match base64Encoded base64 with
                | None => w
                | Some audioData =>
                    set_playback
                      (AudioPlayback.enqueuePcm os audioData (playback w)) w
                end
            end
          else if decide (type = "viseme") then
            match asDouble (payload !! "value") with
            | Some value =>
                let w := set_visemeValue value w in
                set_unity (UnityBridge.updateViseme value (unity w)) w
            | None => w
            end
          else if decide (type = "tts.done") then
            set_status "Idle" w
          else if decide (type = "error") then
            set_status (default "Error" (asString (payload !! "message"))) w
          else w
      end
  | _ => w
  end.

(** [handleMessage]: a Swift string always has a UTF-8 encoding, so both
    cases reach [handleJson]. *)
Definition handleMessage (os : Platform) (message : Message) (w : World)
  : World :=
  match message with
  | string_ text => handleJson os text w
  | data_ data => handleJson os data w
  end.

(** [Result<Message, Error>] as passed to the receive handler. *)
Inductive Result :=
  | failure (error : string)
  | success (message : Message).

(** The completion handler installed by [listen]. *)
Definition receiveCompletion (os : Platform) (result : Result) (w : World)
  : World :=
  match result with
  | failure e =>
      let w := set_status ("WS error: " +:+ e) w in
      set_isConnected false w
  | success message =>
      let w := handleMessage os message w in
      listen w
  end.

(** The tap block installed by the recorder, with the closure the
    client gave it. *)
Definition tapBlock (os : Platform) (buffer : AudioRecorder.TapBuffer)
    (w : World) : World :=
  match AudioRecorder.handleBuffer os buffer (recorder w) with
  | Some data => sendBinary data w
  | None => w
  end.

End AudioStreamClient.

(** ** ContentView.swift: the two buttons *)

Module ContentView.
Import AudioStreamClient.

Definition isEmpty (s : string) : bool :=
  match s with "" => true | _ => false end.

(** [url] is what [URL(string: wsUrl)] returned. *)
Definition connectButton (url : option string) (w : World) : World :=
  if isConnected w then disconnect w
  else match url with
       | Some u => connect u w
       | None => w
       end.

(** The second button, with its [.disabled] modifier. *)
Definition recordButton (os : Platform) (projectId avatarId : string)
    (w : World) : World :=
  if negb (isConnected w) || isEmpty projectId then w
  else if isRecording w then stopRecording w
  else startRecording os projectId
         (if isEmpty avatarId then None else Some avatarId) w.

End ContentView.

(** ** Everything that can happen to the client *)

Inductive Event :=
  | tapConnect (url : option string)
  | tapRecord (projectId avatarId : string)
  | received (result : AudioStreamClient.Result)
  | sent (error : option string)
  | captured (buffer : AudioRecorder.TapBuffer).

(** The input node calls the tap block only while a tap is installed and
    its engine runs. *)
Definition step (os : Platform) (e : Event) (w : World) : World :=
  match e with
  | tapConnect url => ContentView.connectButton url w
  | tapRecord projectId avatarId =>
      ContentView.recordButton os projectId avatarId w
  | received result => AudioStreamClient.receiveCompletion os result w
  | sent error => AudioStreamClient.sendCompletion error w
  | captured buffer =>
      if AudioRecorder.tapInstalled (recorder w)
         && AudioRecorder.isRunning (recorder w)
      then AudioStreamClient.tapBlock os buffer w
      else w
  end.

Definition run (os : Platform) (es : list Event) (w : World) : World :=
  foldl (fun w e => step os e w) w es.

Local Close Scope N_scope.

(** ** Concrete inputs used by the examples *)

(** A device on which every system call succeeds. *)
Definition ios : Platform :=
  {| sessionFailure := None; outputFailure := None; inputFailure := None;
     converterAvailable := true; pcmBufferAvailable := fun _ => true |}.

(** A device whose microphone engine refuses to start. *)
Definition iosNoMic : Platform :=
  {| sessionFailure := None; outputFailure := None;
     inputFailure := Some "The operation could not be completed.";
     converterAvailable := true; pcmBufferAvailable := fun _ => true |}.

Definition endpoint : string := "ws://localhost:8000/ws/audio".

(** Connect, then Record with project [p1]. *)
Definition streaming : World :=
  run ios [tapConnect (Some endpoint); tapRecord "p1" ""] AudioStreamClient.init.

(** The same, then Stop. *)
Definition processing : World :=
  run ios [tapRecord "p1" ""] streaming.

(** The double nearest to 1.4. *)
Definition v1_4 : float := 0x1.6666666666666p+0%float.

Definition visemeMessage (v : float) : Message :=
  string_ (Some (object (list_to_map [("type", str "viseme"); ("value", num v)]))).

(** [tts.audio] carrying the four bytes 01 00 02 00. *)
Definition ttsAudioMessage : Message :=
  string_ (Some (object (list_to_map
                           [("type", str "tts.audio"); ("data", str "AQACAA==")]))).

Definition deltaMessage (text : string) : Message :=
  string_ (Some (object (list_to_map
                           [("type", str "assistant.delta"); ("text", str text)]))).

(** A dictionary without ["type"]. *)
Definition untypedMessage : Message :=
  data_ (Some (object (list_to_map [("text", str "hi")]))).

(** Two Int16 frames out of the converter. *)
Definition goodBuffer : AudioRecorder.TapBuffer :=
  {| AudioRecorder.frameCapacity := 1024;
     AudioRecorder.conversion := Some [1; -2]%Z |}.

(** A buffer the converter rejects. *)
Definition badBuffer : AudioRecorder.TapBuffer :=
  {| AudioRecorder.frameCapacity := 1024; AudioRecorder.conversion := None |}.

(** Connect, then Record on a device whose microphone engine does not
    start: playback is running, the tap is installed, [isRecording] is
    false. *)
Definition failedStart : World :=
  run iosNoMic [tapConnect (Some endpoint); tapRecord "p1" ""]
    AudioStreamClient.init.

(** ** Notions used in the statements *)

Definition payloadOf (m : Message) : JsonData :=
  match m with string_ d => d | data_ d => d end.

(** A frame that does not decode, that decodes to something other than a
    dictionary, or whose dictionary has no string under ["type"]. *)
Definition malformed (m : Message) : Prop :=
  match payloadOf m with
  | Some (object d) => asString (d !! "type") = None
  | _ => True
  end.

(** Something was written to the console between [w] and [w']. *)
Definition logged (w w' : World) : Prop := console w' <> console w.

(** The [text] a message contributes to the assistant's reply: its [text]
    field if it is an [assistant.delta] (nothing when that field is absent
    or not a string), nothing for any other message. *)
Definition deltaText (m : Message) : string :=
  match payloadOf m with
  | Some (object d) =>
      if decide (asString (d !! "type") = Some "assistant.delta")
      then default "" (asString (d !! "text"))
      else ""
  | _ => ""
  end.

(** The Viseme Relay contract in the words of the specification. *)
Definition clamp01 (v : float) : float :=
  if (v <? 0)%float then 0%float
  else if (1 <? v)%float then 1%float
  else v.

(** The receive handler run on each message of a list, in order. *)
Definition receiveAll (os : Platform) (ms : list Message) (w : World) : World :=
  foldl (fun w m => AudioStreamClient.receiveCompletion os
                      (AudioStreamClient.success m) w) w ms.

(** An error came to the surface between [w] and [w']: the status text
    changed or something was logged. *)
Definition reported (w w' : World) : Prop :=
  status w' <> status w \/ logged w w'.

Ltac world_simpl :=
  cbn [status transcript assistantText isConnected isRecording visemeValue
       task recorder playback net unity console
       set_status set_transcript set_assistantText set_isConnected
       set_isRecording set_visemeValue set_task set_recorder set_playback
       set_unity call negb orb andb fst snd] in *.

Definition isResume (c : URLSessionWebSocketTask * TaskCall) : bool :=
  match c.2 with resume => true | _ => false end.

(** How many times a task has been resumed, that is, how many connection
    attempts were made. *)
Definition resumes (w : World) : nat := length (List.filter isResume (net w)).

(** ** Notions used in the further properties *)

(** A device on which no converter can be made for the input format. *)
Definition iosNoConverter : Platform :=
  {| sessionFailure := None; outputFailure := None; inputFailure := None;
     converterAvailable := false; pcmBufferAvailable := fun _ => true |}.

(** A run in which each event comes with the platform's answers of its
    moment. *)
Definition play (l : list (Platform * Event)) (w : World) : World :=
  foldl (fun w oe => step oe.1 oe.2 w) w l.

(** The canonical bytes of a converted buffer: what [handleBuffer] hands
    on. *)
Definition pcm16Data (frames : list Z) : Data :=
  concat (map AudioRecorder.int16Bytes frames).

(** The value a [viseme] message carries, when it is a number. *)
Definition visemeOf (m : Message) : option float :=
  match payloadOf m with
  | Some (object d) =>
      if decide (asString (d !! "type") = Some "viseme")
      then asDouble (d !! "value") else None
  | _ => None
  end.

(** The audio a [tts.audio] message carries, when its [data] is a string
    of valid base64. *)
Definition ttsChunk (m : Message) : option Data :=
  match payloadOf m with
  | Some (object d) =>
      if decide (asString (d !! "type") = Some "tts.audio")
      then asString (d !! "data") ≫= base64Encoded else None
  | _ => None
  end.

(** The text an [asr.final] message carries, when it is a string. *)
Definition asrText (m : Message) : option string :=
  match payloadOf m with
  | Some (object d) =>
      if decide (asString (d !! "type") = Some "asr.final")
      then asString (d !! "text") else None
  | _ => None
  end.

(** A recorder whose converter exists and whose target format is the
    Int16 one, with the client's closure installed. *)
Definition converting (r : AudioRecorder.t) : Prop :=
  AudioRecorder.converter r = true /\ AudioRecorder.onPcmData r = true
  /\ exists f, AudioRecorder.targetFormat r = Some f /\ int16ChannelData f = true.

#[global] Instance task_eq_dec : EqDecision URLSessionWebSocketTask.
Proof. solve_decision. Defined.

(** Reading the calls made on tasks from the first to the last: whether
    every binary frame so far went to a task on which [audio.start] had
    been sent with no [audio.stop] since, and the task that is open in
    this sense at the end, if any. *)
Definition bracketStep (s : bool * option URLSessionWebSocketTask)
    (c : URLSessionWebSocketTask * TaskCall)
  : bool * option URLSessionWebSocketTask :=
  match c.2 with
  | send_string payload =>
      match asString (payload !! "type") with
      | Some type =>
          if decide (type = "audio.start") then (s.1, Some c.1)
          else if decide (type = "audio.stop") then (s.1, None)
          else s
      | None => s
      end
  | send_data _ => (s.1 && bool_decide (s.2 = Some c.1), s.2)
  | _ => s
  end.

Definition bracket (l : list (URLSessionWebSocketTask * TaskCall))
  : bool * option URLSessionWebSocketTask :=
  foldl bracketStep (true, None) l.

(** What holds of every state the two buttons and the callbacks can lead
    to from the initial one. *)
Definition invariant (w : World) : Prop :=
  (bracket (net w)).1 = true
  /\ (AudioRecorder.isRunning (recorder w) = true -> isRecording w = true)
  /\ (isRecording w = true ->
      exists t, task w = Some t /\ (bracket (net w)).2 = Some t)
  /\ (isConnected w = true -> is_Some (task w))
  /\ AudioPlayback.started (playback w) = AudioPlayback.isRunning (playback w)
  /\ AudioPlayback.isRunning (playback w)
     = AudioPlayback.isPlaying (AudioPlayback.player (playback w))
  /\ (isRecording w = true ->
      AudioRecorder.isRunning (recorder w) = true
      /\ AudioRecorder.tapInstalled (recorder w) = true
      /\ AudioRecorder.onPcmData (recorder w) = true
      /\ AudioPlayback.started (playback w) = true).

(** ** runtimeConfig.js *)

Module RuntimeConfig.

(** A JavaScript string is the list of its UTF-16 code units. *)
Definition js (s : string) : list N :=
  N_of_ascii <$> String.list_ascii_of_string s.

(** A JavaScript value, as far as this file looks at it.  An object (or an
    array) is given by the value of its [apiBase] property, [JSUndefined]
    when it has none. *)
Inductive JSValue :=
  | JSUndefined
  | JSNull
  | JSBoolean (b : bool)
  | JSNumber (x : float)
  | JSStr (s : list N)
  | JSObj (apiBase : JSValue).

(** The code units [String.prototype.trim] removes: WhiteSpace and
    LineTerminator of ECMAScript. *)
Definition isWhiteSpace (c : N) : bool :=
  existsb (N.eqb c)
    [0x9; 0xA; 0xB; 0xC; 0xD; 0x20; 0xA0; 0x1680; 0x2028; 0x2029; 0x202F;
     0x205F; 0x3000; 0xFEFF]%N
  || (0x2000 <=? c)%N && (c <=? 0x200A)%N.

Definition isSlash (c : N) : bool := (c =? 47)%N.

Fixpoint dropWhile (p : N -> bool) (s : list N) : list N :=
  match s with
  | c :: rest => if p c then dropWhile p rest else s
  | [] => []
  end.

Definition dropWhileEnd (p : N -> bool) (s : list N) : list N :=
  reverse (dropWhile p (reverse s)).

Definition trim (s : list N) : list N :=
  dropWhileEnd isWhiteSpace (dropWhile isWhiteSpace s).

Definition DEFAULT_API_BASE : list N := js "http://localhost:8000".

(** [trimmed.replace(/\/+$/, "")] removes the run of slashes the string
    ends with. *)
Definition normalizeApiBase (value : JSValue) : list N :=
  match value with
  | JSStr s =>
      match trim s with
      | [] => []
      | trimmed => dropWhileEnd isSlash trimmed
      end
  | _ => []
  end.

(** What [fetch("/app-config.json")] and [response.json()] came to:
    [None] stands for a throw. *)
Record Fetched := {
  ok : bool;
  json : option JSValue
}.

(** [a || b] on strings: the empty string is the falsy one. *)
Definition orElse (a b : list N) : list N :=
  match a with [] => b | _ => a end.

(** [loadRuntimeConfig]: the [apiBase] of the object it resolves to.
    [file] is [None] when [fetch] throws; [env] is
    [import.meta.env.VITE_API_BASE]. *)
Definition loadRuntimeConfig (file : option Fetched) (env : JSValue) : list N :=
  let fileApiBase :=
    match file with
    | Some response =>
        if ok response then
          match json response with
          | Some (JSObj apiBase) => normalizeApiBase apiBase
          | _ => []
          end
        else []
    | None => []
    end in
  let envApiBase := normalizeApiBase env in
  orElse envApiBase (orElse fileApiBase DEFAULT_API_BASE).

End RuntimeConfig.

(** ** main.js: the framing of the streamed reply in [streamResponse] *)

Module ChatStream.
Import RuntimeConfig.

(** A string with [c] put in front of its first piece. *)
Definition consHead (c : N) (parts : list (list N)) : list (list N) :=
  match parts with
  | p :: ps => (c :: p) :: ps
  | [] => [[c]]
  end.

(** [s.split("\n\n")]: the pieces between the blank lines, found from the
    left; never an empty array. *)
Fixpoint splitBlank (s : list N) : list (list N) :=
  match s with
  | [] => [[]]
  | c :: rest =>
      if (c =? 10)%N then
        match rest with
        | d :: rest' =>
            if (d =? 10)%N then [] :: splitBlank rest'
            else consHead c (splitBlank rest)
        | [] => consHead c (splitBlank rest)
        end
      else consHead c (splitBlank rest)
  end.

(** [part.split("\n")]. *)
Fixpoint splitLines (s : list N) : list (list N) :=
  match s with
  | [] => [[]]
  | c :: rest =>
      if (c =? 10)%N then [] :: splitLines rest
      else consHead c (splitLines rest)
  end.

Fixpoint startsWith (prefix s : list N) : bool :=
  match prefix, s with
  | [], _ => true
  | a :: prefix', b :: s' => (a =? b)%N && startsWith prefix' s'
  | _ :: _, [] => false
  end.

Definition eqString (a b : list N) : bool := bool_decide (a = b).

(** One line of a part: the text handed to [JSON.parse], if the line gets
    that far. *)
Definition linePayload (line : list N) : option (list N) :=
  if negb (startsWith (js "data:") line) then None
  else
    let data := trim (drop 5 line) in
    match data with
    | [] => None
    | _ => if eqString data (js "[DONE]") then None else Some data
    end.

Definition partPayloads (part : list N) : list (list N) :=
  omap linePayload (splitLines part).

(** [parts.pop() || ""] and what is left in [parts]. *)
Definition popped (parts : list (list N)) : list N := default [] (last parts).

(** The loop's state: [buffer], and the texts handed to [JSON.parse] so
    far. *)
Record Loop := {
  buffer : list N;
  parsed : list (list N)
}.

(** One turn of the loop on a decoded chunk. *)
Definition onChunk (st : Loop) (chunk : list N) : Loop :=
  let parts := splitBlank (buffer st ++ chunk) in
  {| buffer := popped parts;
     parsed := parsed st ++ mjoin (partPayloads <$> removelast parts) |}.

(** The whole loop, until [done]. *)
Definition streamResponse (chunks : list (list N)) : Loop :=
  foldl onChunk {| buffer := []; parsed := [] |} chunks.

End ChatStream.

(** The [type]s that have a case in [handleJson]'s switch. *)
Definition handledTypes : list string :=
  ["asr.final"; "assistant.delta"; "assistant.done"; "tts.start"; "tts.audio";
   "viseme"; "tts.done"; "error"].

(** [asr.start], which the server sends and the switch has no case for. *)
Definition asrStartMessage : Message :=
  string_ (Some (object (list_to_map [("type", str "asr.start")]))).

(** The text an event contributes to the assistant's reply: that of an
    [assistant.delta] message it delivers, nothing otherwise. *)
Definition eventDelta (e : Event) : string :=
  match e with
  | received (AudioStreamClient.success m) => deltaText m
  | _ => ""
  end.

(** The event is a tap on Record that gets past the button's [.disabled]
    modifier and past [startRecording]'s guard: a new recording starts,
    and both texts are cleared. *)
Definition restarts (e : Event) (w : World) : bool :=
  match e with
  | tapRecord projectId _ =>
      isConnected w && negb (ContentView.isEmpty projectId)
      && negb (isRecording w)
      && match task w with Some _ => true | None => false end
  | _ => false
  end.

(** No event of the run starts a new recording. *)
Fixpoint noRestart (l : list (Platform * Event)) (w : World) : bool :=
  match l with
  | [] => true
  | oe :: l => negb (restarts oe.2 w) && noRestart l (step oe.1 oe.2 w)
  end.

(** The [assistant.delta] texts of a run, in arrival order. *)
Definition replyText (l : list (Platform * Event)) : string :=
  foldr String.append "" (map (fun oe => eventDelta oe.2) l).

(** ** AudioPlayback: what [enqueuePcm] schedules *)

Section Playback.
Import AudioPlayback.

Lemma pairs_ind (P : Data -> Prop) :
  P [] -> (forall a, P [a]) -> (forall a b l, P l -> P (a :: b :: l)) ->
  forall l, P l.
Proof.
  intros Hnil Hone Hstep l.
  assert (H : P l /\ forall a, P (a :: l)).
  { induction l as [|b l [IH1 IH2]]; split; auto. }
  apply H.
Qed.

Lemma bindMemory_length (data : Data) :
  length (bindMemory data) = length data / 2.
Proof.
  induction data as [|a|a b l IH] using pairs_ind; [reflexivity..|].
  cbn [bindMemory length]. rewrite IH.
  change (S (S (length l))) with (1 * 2 + length l).
  rewrite Nat.div_add_l by lia. lia.
Qed.

Lemma bindMemory_odd (data : Data) (b : byte) :
  Nat.Even (length data) -> bindMemory (data ++ [b]) = bindMemory data.
Proof.
  induction data as [|a|a c l IH] using pairs_ind; intros Hev.
  - reflexivity.
  - destruct Hev as [k Hk]. simpl in Hk. lia.
  - cbn [app bindMemory]. f_equal. apply IH.
    destruct Hev as [k Hk]. simpl in Hk. exists (k - 1). lia.
Qed.

Lemma half_odd (data : Data) (b : byte) :
  Nat.Even (length data) -> length (data ++ [b]) / 2 = length data / 2.
Proof.
  intros [k Hk]. rewrite length_app, Hk. simpl length.
  replace (2 * k + 1) with (1 + k * 2) by lia.
  rewrite Nat.div_add by lia. replace (2 * k) with (k * 2) by lia.
  rewrite Nat.div_mul by lia. reflexivity.
Qed.

Lemma enqueuePcm_scheduled (os : Platform) (data : Data) (p : t) (f : AVAudioFormat) :
  format p = Some f ->
  int16ChannelData f = true ->
  pcmBufferAvailable os (length data / 2) = true ->
  enqueuePcm os data p = scheduleBuffer (bindMemory data) p.
Proof.
  intros Hf Hi Ha. unfold enqueuePcm. rewrite Hf, Ha, Hi. cbn [negb].
  rewrite take_ge; [reflexivity|]. rewrite bindMemory_length. lia.
Qed.

End Playback.

(** C10. While the playback format is the Int16 one and the PCM buffer is
    allocated, [enqueuePcm] schedules exactly one more buffer; it holds the
    Int16 values of the whole byte pairs of the data, floor(byteCount / 2)
    samples (so none for empty data), and a trailing odd byte changes
    nothing: the call with that byte appended does what the call without
    it does. *)
Theorem enqueuePcm_frame_count (os : Platform) (data : Data)
    (p : AudioPlayback.t) (f : AVAudioFormat) :
  AudioPlayback.format p = Some f ->
  int16ChannelData f = true ->
  pcmBufferAvailable os (length data / 2) = true ->
  let q := AudioPlayback.enqueuePcm os data p in
  AudioPlayback.scheduled (AudioPlayback.player q)
    = AudioPlayback.scheduled (AudioPlayback.player p)
        ++ [AudioPlayback.bindMemory data]
  /\ length (AudioPlayback.bindMemory data) = length data / 2
  /\ (forall b : byte, Nat.Even (length data) ->
        AudioPlayback.enqueuePcm os (data ++ [b]) p = q).
Proof.
  intros Hf Hi Ha q. subst q. split; [|split].
  - rewrite (enqueuePcm_scheduled os data p f Hf Hi Ha). reflexivity.
  - apply bindMemory_length.
  - intros b Hev.
    rewrite (enqueuePcm_scheduled os data p f Hf Hi Ha).
    rewrite (enqueuePcm_scheduled os (data ++ [b]) p f Hf Hi).
    + rewrite bindMemory_odd by exact Hev. reflexivity.
    + rewrite half_odd by exact Hev. exact Ha.
Qed.

(** Five bytes on a started pipeline: two samples, the fifth byte is lost. *)
Lemma enqueuePcm_frame_count_witness :
  let p := fst (AudioPlayback.start ios AudioPlayback.init) in
  let data := ["001"; "000"; "255"; "255"]%byte in
  AudioPlayback.scheduled
    (AudioPlayback.player (AudioPlayback.enqueuePcm ios data p)) = [[1; -1]%Z]
  /\ AudioPlayback.enqueuePcm ios (data ++ ["007"%byte]) p
     = AudioPlayback.enqueuePcm ios data p.
Proof.
  intros p data.
  destruct (enqueuePcm_frame_count ios data p pcm16Mono16k) as (Hs & _ & Hodd);
    [reflexivity..|].
  split.
  - exact Hs.
  - apply Hodd. exists 2. reflexivity.
Defined.

(** C4 (as amended). An [enqueuePcm] that comes after [stop()] raises no
    error and leaves the pipeline stopped, with nothing fed to the output
    device; but it is not dropped: [enqueuePcm] never reads [started], the
    buffer is scheduled on the player node, and once the next [start()]
    succeeds it is what the device is fed. *)
Theorem enqueuePcm_after_stop (os : Platform) (data : Data)
    (p : AudioPlayback.t) (f : AVAudioFormat) :
  AudioPlayback.format p = Some f ->
  int16ChannelData f = true ->
  pcmBufferAvailable os (length data / 2) = true ->
  let q := AudioPlayback.enqueuePcm os data (AudioPlayback.stop p) in
  AudioPlayback.scheduled (AudioPlayback.player q) = [AudioPlayback.bindMemory data]
  /\ AudioPlayback.started q = false
  /\ AudioPlayback.rendered q = []
  /\ (outputFailure os = None ->
      AudioPlayback.rendered (fst (AudioPlayback.start os q))
        = [AudioPlayback.bindMemory data]).
Proof.
  intros Hf Hi Ha q. subst q.
  rewrite (enqueuePcm_scheduled os data (AudioPlayback.stop p) f Hf Hi Ha).
  repeat split.
  intros Hout. unfold AudioPlayback.start. cbn. rewrite Hout. reflexivity.
Qed.

Lemma enqueuePcm_after_stop_witness :
  let p := fst (AudioPlayback.start ios AudioPlayback.init) in
  let q := AudioPlayback.enqueuePcm ios ["001"; "000"; "002"; "000"]%byte
             (AudioPlayback.stop p) in
  AudioPlayback.scheduled (AudioPlayback.player q) = [[1; 2]%Z]
  /\ AudioPlayback.rendered (fst (AudioPlayback.start ios q)) = [[1; 2]%Z].
Proof.
  intros p q.
  destruct (enqueuePcm_after_stop ios ["001"; "000"; "002"; "000"]%byte p
              pcm16Mono16k) as (Hs & _ & _ & Hr); [reflexivity..|].
  split; [exact Hs | exact (Hr eq_refl)].
Defined.

(** C4 as stated fails: a [tts.audio] chunk that arrives after Stop (hence
    after [playback.stop()]) changes the pipeline, and its samples are
    rendered as soon as Record is tapped again. *)
Lemma late_tts_audio_is_scheduled :
  let late := step ios (received (AudioStreamClient.success ttsAudioMessage))
                processing in
  AudioPlayback.started (playback processing) = false
  /\ playback late <> playback processing
  /\ AudioPlayback.rendered (playback (step ios (tapRecord "p1" "") late))
     = [[1; 2]%Z].
Proof.
  cbv zeta. split; [reflexivity|]. split; [|reflexivity].
  intros H. vm_compute in H. discriminate H.
Qed.

(** ** Inbound messages *)

Section Inbound.
Import AudioStreamClient.

Lemma handleMessage_payloadOf (os : Platform) (m : Message) (w : World) :
  handleMessage os m w = handleJson os (payloadOf m) w.
Proof. destruct m; reflexivity. Qed.

Lemma append_empty (s : string) : s +:+ "" = s.
Proof.
  induction s as [|c s IH]; [reflexivity|].
  change (String c (s +:+ "") = String c s). by rewrite IH.
Qed.

Lemma append_assoc (a b c : string) : (a +:+ b) +:+ c = a +:+ (b +:+ c).
Proof.
  induction a as [|x a IH]; [reflexivity|].
  change (String x ((a +:+ b) +:+ c) = String x (a +:+ (b +:+ c))).
  by rewrite IH.
Qed.

Lemma handleMessage_assistantText (os : Platform) (m : Message) (w : World) :
  assistantText (handleMessage os m w) = assistantText w +:+ deltaText m.
Proof.
  rewrite handleMessage_payloadOf. unfold deltaText, handleJson.
  destruct (payloadOf m) as [[d|]|]; try (by rewrite append_empty).
  destruct (asString (d !! "type")) as [type|] eqn:Htype;
    [|by rewrite decide_False, append_empty].
  repeat case_decide; simplify_eq; try done;
    try (by rewrite append_empty).
  all: repeat case_match; by rewrite append_empty.
Qed.

Lemma listen_assistantText (w : World) :
  assistantText (listen w) = assistantText w.
Proof. unfold listen. by destruct (task w). Qed.

Lemma receiveAll_assistantText (os : Platform) (ms : list Message) (w : World) :
  assistantText (receiveAll os ms w)
  = assistantText w +:+ foldr String.append "" (map deltaText ms).
Proof.
  revert w. induction ms as [|m ms IH]; intros w.
  - simpl. by rewrite append_empty.
  - unfold receiveAll in *. cbn [foldl map foldr]. rewrite IH.
    cbn [receiveCompletion].
    rewrite listen_assistantText, handleMessage_assistantText.
    apply append_assoc.
Qed.

Lemma startRecording_assistantText (os : Platform) (projectId : string)
    (avatarId : option string) (w : World) :
  task w <> None -> assistantText (startRecording os projectId avatarId w) = "".
Proof.
  intros Ht. unfold startRecording. destruct (task w) as [t|]; [|done].
  cbn. unfold configureAudioSession.
  repeat case_match; reflexivity.
Qed.

End Inbound.

Lemma stopRecording_assistantText (w : World) :
  assistantText (AudioStreamClient.stopRecording w) = assistantText w.
Proof. unfold AudioStreamClient.stopRecording. by repeat case_match. Qed.

Lemma disconnect_assistantText (w : World) :
  assistantText (AudioStreamClient.disconnect w) = assistantText w.
Proof.
  unfold AudioStreamClient.disconnect.
  destruct (task (AudioStreamClient.stopRecording w)); world_simpl;
    apply stopRecording_assistantText.
Qed.

(** An event that does not start a new recording appends what it
    contributes and leaves the rest of the assistant text alone. *)
Lemma step_assistantText (os : Platform) (e : Event) (w : World) :
  restarts e w = false ->
  assistantText (step os e w) = assistantText w +:+ eventDelta e.
Proof.
  intros Hr.
  destruct e as [url | pid aid | [err|m] | [err|] | buf];
    cbn [step eventDelta]; rewrite ?append_empty.
  - unfold ContentView.connectButton, AudioStreamClient.connect,
      AudioStreamClient.listen.
    destruct (isConnected w); [apply disconnect_assistantText|].
    destruct url; [|done]. world_simpl. apply disconnect_assistantText.
  - unfold ContentView.recordButton. cbn [restarts] in Hr.
    destruct (isConnected w); [|done].
    destruct (ContentView.isEmpty pid); [done|].
    destruct (isRecording w); cbn [negb orb andb] in *.
    + apply stopRecording_assistantText.
    + unfold AudioStreamClient.startRecording. by destruct (task w).
  - done.
  - cbn [AudioStreamClient.receiveCompletion].
    by rewrite listen_assistantText, handleMessage_assistantText.
  - done.
  - done.
  - unfold AudioStreamClient.tapBlock, AudioStreamClient.sendBinary.
    by repeat case_match.
Qed.

Lemma play_assistantText (l : list (Platform * Event)) (w : World) :
  noRestart l w = true ->
  assistantText (play l w) = assistantText w +:+ replyText l.
Proof.
  revert w. induction l as [|[os e] l IH]; intros w Hl.
  - cbn. by rewrite append_empty.
  - cbn [noRestart fst snd] in Hl. apply andb_true_iff in Hl as [Hr Hl].
    apply negb_true_iff in Hr.
    unfold play in *. cbn [foldl fst snd]. rewrite (IH _ Hl).
    rewrite (step_assistantText os e w Hr).
    unfold replyText. cbn [map foldr snd]. apply append_assoc.
Qed.

(** C9. After a [startRecording] that found a task, whatever happens next
    (messages of any kind, send completions, captured buffers, receive
    failures, taps on Connect, the tap on Stop), as long as no new
    recording is started, the assistant text is the concatenation, in
    arrival order, of the [text] fields of the [assistant.delta] messages
    received since: none is dropped, moved or overwritten. *)
Theorem assistantText_accumulates (os : Platform) (projectId : string)
    (avatarId : option string) (l : list (Platform * Event)) (w : World) :
  task w <> None ->
  noRestart l (AudioStreamClient.startRecording os projectId avatarId w) = true ->
  assistantText
    (play l (AudioStreamClient.startRecording os projectId avatarId w))
  = replyText l.
Proof.
  intros Ht Hl. rewrite (play_assistantText l _ Hl).
  by rewrite startRecording_assistantText.
Qed.

(** Record, a captured buffer, Stop, then the reply, with a send failure
    and a viseme in between. *)
Lemma assistantText_accumulates_witness :
  let w := AudioStreamClient.connect endpoint AudioStreamClient.init in
  assistantText
    (play [(ios, captured goodBuffer);
           (ios, tapRecord "p1" "");
           (ios, received (AudioStreamClient.success (deltaMessage "Hel")));
           (ios, sent (Some "timed out"));
           (ios, received (AudioStreamClient.success (visemeMessage v1_4)));
           (ios, received (AudioStreamClient.success (deltaMessage "lo")))]
       (AudioStreamClient.startRecording ios "p1" None w))
  = "Hello".
Proof.
  intros w.
  refine (assistantText_accumulates ios "p1" None _ w _ _).
  - discriminate.
  - vm_compute. reflexivity.
Defined.

(** C8 (as amended). A malformed inbound message is dropped without a
    trace: [handleMessage] returns the world it was given, console
    included, and the receive handler does nothing but listen again. *)
Theorem malformed_message_dropped (os : Platform) (m : Message) (w : World) :
  malformed m ->
  AudioStreamClient.handleMessage os m w = w
  /\ AudioStreamClient.receiveCompletion os (AudioStreamClient.success m) w
     = AudioStreamClient.listen w.
Proof.
  intros Hm. unfold malformed in Hm.
  assert (H : AudioStreamClient.handleMessage os m w = w).
  { rewrite handleMessage_payloadOf. unfold AudioStreamClient.handleJson.
    destruct (payloadOf m) as [[d|]|]; try reflexivity. by rewrite Hm. }
  split; [exact H|]. cbn [AudioStreamClient.receiveCompletion]. by rewrite H.
Qed.

Lemma malformed_message_dropped_witness :
  AudioStreamClient.handleMessage ios untypedMessage streaming = streaming.
Proof.
  refine (proj1 (malformed_message_dropped ios untypedMessage streaming _)).
  reflexivity.
Defined.

(** C8 as stated fails: nothing is logged when an undecodable frame is
    received. *)
Lemma malformed_message_not_logged :
  ~ logged streaming (step ios (received (AudioStreamClient.success (string_ None)))
                        streaming).
Proof. intros H. apply H. reflexivity. Qed.

(** C2 (as amended). A [viseme] message whose [value] is a number has that
    very number stored in [visemeValue] and passed to
    [UnityBridge.updateViseme], unclamped; the call cannot fail. *)
Theorem viseme_forwarded_unchanged (os : Platform) (payload : gmap string Any)
    (value : float) (w : World) :
  payload !! "type" = Some (str "viseme") ->
  payload !! "value" = Some (num value) ->
  let w' := AudioStreamClient.handleJson os (Some (object payload)) w in
  unity w' = unity w ++ [value] /\ visemeValue w' = value.
Proof.
  intros Ht Hv w'. subst w'. unfold AudioStreamClient.handleJson.
  rewrite Ht, Hv. cbn [asString asDouble].
  repeat case_decide; simplify_eq. split; reflexivity.
Qed.

Lemma viseme_forwarded_unchanged_witness :
  unity (AudioStreamClient.handleJson ios (payloadOf (visemeMessage v1_4)) streaming)
  = [v1_4].
Proof.
  refine (proj1 (viseme_forwarded_unchanged ios
                   (list_to_map [("type", str "viseme"); ("value", num v1_4)])
                   v1_4 streaming _ _)); reflexivity.
Defined.

(** C2 as stated fails: on [viseme{value: 1.4}] the bridge is called with
    1.4, which lies above 1 and is not its clamped value 1.0. *)
Lemma viseme_not_clamped :
  let w := step ios (received (AudioStreamClient.success (visemeMessage v1_4)))
             streaming in
  unity w = [v1_4]
  /\ clamp01 v1_4 = 1%float
  /\ unity w <> [clamp01 v1_4].
Proof.
  cbv zeta. split; [reflexivity|]. split; [reflexivity|].
  intros H.
  pose (isOne := fun l : list float =>
                   match l with [x] => PrimFloat.eqb x 1 | _ => false end).
  assert (E : isOne [clamp01 v1_4] = true) by reflexivity.
  rewrite <- H in E. vm_compute in E. discriminate E.
Qed.

(** ** Frame properties of the client's methods *)

Section Frames.
Import AudioStreamClient.


(** What [handleMessage] never touches. *)
Lemma handleMessage_frame (os : Platform) (m : Message) (w : World) :
  let w' := handleMessage os m w in
  net w' = net w /\ task w' = task w /\ console w' = console w
  /\ isConnected w' = isConnected w /\ isRecording w' = isRecording w
  /\ recorder w' = recorder w.
Proof.
  cbv zeta. rewrite handleMessage_payloadOf. unfold handleJson.
  destruct (payloadOf m) as [[d|]|]; try done.
  destruct (asString (d !! "type")) as [type|]; [|done].
  repeat case_decide; try done.
  all: repeat case_match; done.
Qed.

Lemma stopRecording_frame (w : World) :
  let w' := stopRecording w in
  resumes w' = resumes w /\ task w' = task w /\ console w' = console w
  /\ isConnected w' = isConnected w.
Proof.
  cbv zeta. unfold stopRecording. destruct (task w) as [t|] eqn:Ht; [|done].
  destruct (isRecording w); [|done]. unfold sendJson, resumes.
  world_simpl. rewrite List.filter_app, length_app. simpl.
  repeat split; (lia || done).
Qed.

Lemma disconnect_frame (w : World) :
  resumes (disconnect w) = resumes w /\ console (disconnect w) = console w.
Proof.
  unfold disconnect. destruct (stopRecording_frame w) as (Hr & _ & Hc & _).
  destruct (task (stopRecording w)) as [t|]; world_simpl.
  - split; [|done]. rewrite <- Hr. unfold resumes. world_simpl.
    rewrite List.filter_app, length_app. simpl. lia.
  - done.
Qed.

Lemma startRecording_frame (os : Platform) (projectId : string)
    (avatarId : option string) (w : World) :
  let w' := startRecording os projectId avatarId w in
  resumes w' = resumes w /\ console w' = console w.
Proof.
  cbv zeta. unfold startRecording.
  destruct (task w) as [t|]; [|done].
  unfold sendJson, configureAudioSession.
  repeat case_match; world_simpl; unfold resumes; world_simpl;
    rewrite List.filter_app, length_app; simpl; split; (lia || done).
Qed.

(** [disconnect()] run twice is [disconnect()] run once. *)
Lemma disconnect_idempotent (w : World) :
  disconnect (disconnect w) = disconnect w.
Proof.
  unfold disconnect at 1. unfold stopRecording.
  assert (Ht : task (disconnect w) = None).
  { unfold disconnect. by destruct (task (stopRecording w)). }
  rewrite Ht. world_simpl.
  assert (Hc : isConnected (disconnect w) = false).
  { unfold disconnect. by destruct (task (stopRecording w)). }
  assert (Hs : status (disconnect w) = "Disconnected").
  { unfold disconnect. by destruct (task (stopRecording w)). }
  destruct (disconnect w); world_simpl. by subst.
Qed.

End Frames.

(** No event writes to the console. *)
Lemma console_silent (os : Platform) (e : Event) (w : World) :
  console (step os e w) = console w.
Proof.
  destruct e as [url | pid aid | [err|m] | [err|] | buf]; simpl; try done.
  - unfold ContentView.connectButton, AudioStreamClient.connect,
      AudioStreamClient.listen.
    destruct (isConnected w).
    + apply disconnect_frame.
    + destruct url; [|done]. world_simpl. apply disconnect_frame.
  - unfold ContentView.recordButton.
    repeat case_match; try done.
    + apply stopRecording_frame.
    + apply startRecording_frame.
    + apply startRecording_frame.
  - unfold AudioStreamClient.listen.
    destruct (handleMessage_frame os m w) as (_ & _ & Hc & _).
    by destruct (task _).
  - unfold AudioStreamClient.tapBlock, AudioStreamClient.sendBinary.
    repeat case_match; done.
Qed.



(** ** Transport failures *)




(** ** connect *)

(** C3 (as amended). [connect] begins with [disconnect()], so it is
    accepted in any state; it makes the task, resumes it, and marks the
    session connected at once, before anything is received.  If the
    transport never opens, that shows later as a receive failure, which
    sets the status to the cause and [isConnected] back to false. *)
Theorem connect_marks_connected_at_once (os : Platform) (u e : string) (w : World) :
  let c := AudioStreamClient.connect u w in
  let t := {| url := u |} in
  isConnected c = true /\ status c = "Connected" /\ task c = Some t
  /\ net c = net (AudioStreamClient.disconnect w) ++ [(t, resume); (t, receive)]
  /\ isConnected (step os (received (AudioStreamClient.failure e)) c) = false
  /\ status (step os (received (AudioStreamClient.failure e)) c) = "WS error: " +:+ e.
Proof.
  cbv zeta. unfold AudioStreamClient.connect, AudioStreamClient.listen.
  world_simpl. repeat split. by rewrite <- app_assoc.
Qed.

(** C3 as stated fails.  Straight after [connect] the session is marked
    connected although the task has only been resumed and asked for a first
    message; and [connect] is accepted while streaming. *)
Lemma connect_before_handshake :
  let c := AudioStreamClient.connect endpoint AudioStreamClient.init in
  let t := {| url := endpoint |} in
  isConnected c = true /\ status c = "Connected"
  /\ net c = [(t, resume); (t, receive)]
  /\ isRecording streaming = true
  /\ status (AudioStreamClient.connect "ws://elsewhere/ws/audio" streaming)
     = "Connected".
Proof. cbv zeta. repeat apply conj; vm_compute; reflexivity. Qed.

(** ** startRecording *)

(** C5 (as amended). Without a task, that is before [connect] or after
    [disconnect], [startRecording] returns the world unchanged; and the
    Record button does nothing while the session is not marked connected
    or the project identifier is empty. *)
Theorem startRecording_without_task (os : Platform) (projectId avatarId : string)
    (aid : option string) (w : World) :
  (task w = None ->
   AudioStreamClient.startRecording os projectId aid w = w)
  /\ (isConnected w = false \/ projectId = "" ->
      ContentView.recordButton os projectId avatarId w = w).
Proof.
  split.
  - intros Ht. unfold AudioStreamClient.startRecording. by rewrite Ht.
  - intros [Hc | ->]; unfold ContentView.recordButton.
    + by rewrite Hc.
    + by rewrite orb_true_r.
Qed.

Lemma startRecording_without_task_witness :
  AudioStreamClient.startRecording ios "p1" None AudioStreamClient.init
  = AudioStreamClient.init
  /\ ContentView.recordButton ios "p1" "" AudioStreamClient.init
     = AudioStreamClient.init
  /\ ContentView.recordButton ios "" "" processing = processing.
Proof.
  split; [|split].
  - apply (proj1 (startRecording_without_task ios "p1" "" None
                    AudioStreamClient.init)).
    reflexivity.
  - apply (proj2 (startRecording_without_task ios "p1" "" None
                    AudioStreamClient.init)).
    left. reflexivity.
  - apply (proj2 (startRecording_without_task ios "" "" None processing)).
    right. reflexivity.
Defined.

(** C5 as stated fails.  After Stop the status is "Processing", not idle,
    and Record starts a new recording all the same; the method itself also
    takes an empty project identifier. *)
Lemma startRecording_from_processing :
  let w := step ios (tapRecord "p1" "") processing in
  status processing = "Processing" /\ isConnected processing = true
  /\ status w = "Recording" /\ isRecording w = true
  /\ length (net w) = S (length (net processing))
  /\ isRecording (AudioStreamClient.startRecording ios "" None processing) = true.
Proof. cbv zeta. repeat apply conj; vm_compute; reflexivity. Qed.

(** ** Capture *)

(** C6 (as amended). A buffer the converter fails on is dropped without a
    sound: the tap block returns the world unchanged, status included, and
    the buffers after it are handled as if it had never come. *)
Theorem failed_conversion_dropped (os : Platform)
    (buffer next : AudioRecorder.TapBuffer) (w : World) :
  AudioRecorder.conversion buffer = None ->
  AudioStreamClient.tapBlock os buffer w = w
  /\ step os (captured buffer) w = w
  /\ step os (captured next) (step os (captured buffer) w)
     = step os (captured next) w.
Proof.
  intros Hc.
  assert (H : AudioStreamClient.tapBlock os buffer w = w).
  { unfold AudioStreamClient.tapBlock, AudioRecorder.handleBuffer.
    rewrite Hc. by repeat case_match. }
  assert (H' : step os (captured buffer) w = w).
  { cbn [step]. rewrite H. by case_match. }
  by rewrite H'.
Qed.

Lemma failed_conversion_dropped_witness :
  step ios (captured badBuffer) streaming = streaming
  /\ net (step ios (captured goodBuffer) (step ios (captured badBuffer) streaming))
     = net streaming ++ [({| url := endpoint |},
                          send_data ["001"; "000"; "254"; "255"]%byte)].
Proof.
  destruct (failed_conversion_dropped ios badBuffer goodBuffer streaming eq_refl)
    as (_ & H1 & H2).
  split; [exact H1|]. rewrite H2. reflexivity.
Defined.

(** C6 as stated fails: the failure is reported nowhere. *)
Lemma failed_conversion_not_reported :
  ~ reported streaming (step ios (captured badBuffer) streaming).
Proof. intros [H | H]; apply H; reflexivity. Qed.

(** ** disconnect *)

(** C7. The code at the failing input: after a start that failed in the
    recorder, Disconnect closes the task but, [isRecording] being false,
    skips [stopRecording]'s body; the playback engine keeps running and
    the tap stays installed, also after a second [disconnect()]. *)
Theorem disconnect_after_failed_start :
  let w := step iosNoMic (tapConnect None) failedStart in
  status failedStart = "Audio start failed: The operation could not be completed."
  /\ isRecording failedStart = false
  /\ status w = "Disconnected" /\ task w = None
  /\ AudioPlayback.started (playback w) = true
  /\ AudioPlayback.isRunning (playback w) = true
  /\ AudioRecorder.tapInstalled (recorder w) = true
  /\ AudioStreamClient.disconnect w = w.
Proof. cbv zeta. repeat apply conj; vm_compute; reflexivity. Qed.

(** * Further properties of the client *)

(** ** The canonical format on both sides *)

Section Pcm16.
Local Open Scope Z_scope.

Lemma to_N_byteOf (n : N) : Byte.to_N (byteOf n) = (n mod 256)%N.
Proof.
  unfold byteOf. destruct (Byte.of_N (n mod 256)) as [b|] eqn:Hb.
  - by apply Byte.to_of_N.
  - apply Byte.of_N_None_iff in Hb.
    pose proof (N.mod_upper_bound n 256). lia.
Qed.

Lemma int16_int16Bytes (s : Z) :
  -32768 <= s <= 32767 ->
  AudioPlayback.int16 (byteOf (Z.to_N (s mod 256)))
    (byteOf (Z.to_N ((s / 256) mod 256))) = s.
Proof.
  intros Hs. unfold AudioPlayback.int16. rewrite !to_N_byteOf.
  pose proof (Z.mod_pos_bound s 256 eq_refl) as Hlo.
  pose proof (Z.mod_pos_bound (s / 256) 256 eq_refl) as Hhi.
  rewrite !N.mod_small by lia.
  rewrite N2Z.inj_add, N2Z.inj_mul, !Z2N.id by lia.
  change (Z.of_N 256) with 256.
  pose proof (Z.div_mod s 256 ltac:(lia)) as Hdm.
  assert (Hq : -128 <= s / 256 <= 127).
  { split.
    - apply Z.div_le_lower_bound; lia.
    - apply Z.lt_succ_r, Z.div_lt_upper_bound; lia. }
  destruct (Z.leb_spec 0 (s / 256)) as [Hpos | Hneg].
  - rewrite (Z.mod_small (s / 256)) by lia.
    destruct (Z.ltb_spec (s mod 256 + 256 * (s / 256)) 32768); lia.
  - assert (Hm : (s / 256) mod 256 = s / 256 + 256).
    { symmetry. apply (Z.mod_unique _ _ (-1)); lia. }
    rewrite Hm.
    destruct (Z.ltb_spec (s mod 256 + 256 * (s / 256 + 256)) 32768); lia.
Qed.

End Pcm16.

(** X1. What the recorder writes is what the playback reads: the bytes
    [handleBuffer] makes of Int16 frames are two per frame, low byte
    first, and [bindMemory] on them gives the frames back. *)
Theorem bindMemory_pcm16Data (frames : list Z) :
  Forall (fun s => (-32768 <= s <= 32767)%Z) frames ->
  AudioPlayback.bindMemory (pcm16Data frames) = frames
  /\ length (pcm16Data frames) = 2 * length frames.
Proof.
  induction 1 as [|s frames Hs _ [IH1 IH2]]; [done|].
  unfold pcm16Data in *. cbn [map concat AudioRecorder.int16Bytes app
    AudioPlayback.bindMemory length].
  rewrite int16_int16Bytes by done. rewrite IH1, IH2. split; [done | lia].
Qed.

Lemma bindMemory_pcm16Data_witness :
  AudioPlayback.bindMemory (pcm16Data [1; -2; 32767; -32768]%Z)
  = [1; -2; 32767; -32768]%Z.
Proof.
  refine (proj1 (bindMemory_pcm16Data [1; -2; 32767; -32768]%Z _)).
  repeat constructor; lia.
Defined.

(** ** Streams of inbound messages *)

Section Streams.
Import AudioStreamClient.

Lemma receiveAll_snoc (os : Platform) (ms : list Message) (m : Message) (w : World) :
  receiveAll os (ms ++ [m]) w
  = listen (handleMessage os m (receiveAll os ms w)).
Proof. unfold receiveAll. by rewrite foldl_snoc. Qed.

Lemma listen_fields (w : World) :
  unity (listen w) = unity w /\ visemeValue (listen w) = visemeValue w
  /\ transcript (listen w) = transcript w /\ playback (listen w) = playback w
  /\ task (listen w) = task w /\ isConnected (listen w) = isConnected w
  /\ isRecording (listen w) = isRecording w /\ recorder (listen w) = recorder w
  /\ status (listen w) = status w.
Proof.
  unfold listen. destruct (task w) eqn:E; world_simpl; rewrite ?E;
    repeat apply conj; reflexivity.
Qed.

Lemma handleMessage_viseme (os : Platform) (m : Message) (w : World) :
  let w' := handleMessage os m w in
  unity w' = unity w ++ option_list (visemeOf m)
  /\ visemeValue w' = default (visemeValue w) (visemeOf m).
Proof.
  cbv zeta. rewrite handleMessage_payloadOf. unfold visemeOf, handleJson.
  destruct (payloadOf m) as [[d|]|]; try (by rewrite app_nil_r).
  destruct (asString (d !! "type")) as [type|] eqn:Htype;
    [|by rewrite decide_False, app_nil_r].
  repeat case_decide; simplify_eq; try done;
    try (by rewrite app_nil_r).
  all: repeat case_match; simplify_eq; by rewrite ?app_nil_r.
Qed.

Lemma handleMessage_transcript (os : Platform) (m : Message) (w : World) :
  transcript (handleMessage os m w) = default (transcript w) (asrText m).
Proof.
  rewrite handleMessage_payloadOf. unfold asrText, handleJson.
  destruct (payloadOf m) as [[d|]|]; try done.
  destruct (asString (d !! "type")) as [type|] eqn:Htype;
    [|by rewrite decide_False].
  repeat case_decide; simplify_eq; try done.
  all: repeat case_match; simplify_eq; done.
Qed.

Lemma handleMessage_playback (os : Platform) (m : Message) (w : World) :
  playback (handleMessage os m w)
  = match ttsChunk m with
    | Some audioData => AudioPlayback.enqueuePcm os audioData (playback w)
    | None => playback w
    end.
Proof.
  rewrite handleMessage_payloadOf. unfold ttsChunk, handleJson.
  destruct (payloadOf m) as [[d|]|]; try done.
  destruct (asString (d !! "type")) as [type|] eqn:Htype;
    [|by rewrite decide_False].
  repeat case_decide; simplify_eq; try done.
  all: repeat case_match; simplify_eq/=; by simplify_eq.
Qed.

End Streams.

(** X2. Over any run of inbound messages the Unity bridge is called
    once per [viseme] message that carries a number, with those numbers in
    arrival order, and [visemeValue] ends as the last of them (or as it
    was, if there was none). *)
Theorem visemes_forwarded_in_order (os : Platform) (ms : list Message) (w : World) :
  unity (receiveAll os ms w) = unity w ++ omap visemeOf ms
  /\ visemeValue (receiveAll os ms w)
     = default (visemeValue w) (last (omap visemeOf ms)).
Proof.
  induction ms as [|m ms [IH1 IH2]] using rev_ind.
  - by rewrite app_nil_r.
  - rewrite receiveAll_snoc, omap_app.
    destruct (listen_fields (AudioStreamClient.handleMessage os m (receiveAll os ms w)))
      as (-> & -> & _).
    destruct (handleMessage_viseme os m (receiveAll os ms w)) as [-> ->].
    rewrite IH1, IH2, <- app_assoc. cbn [omap list_omap].
    destruct (visemeOf m) as [v|]; cbn [option_list default].
    + by rewrite last_snoc.
    + by rewrite !app_nil_r.
Qed.

(** X3. Over any run of inbound messages the transcript ends as
    the text of the last [asr.final] that carried one; an [asr.final]
    without a text leaves it as it was. *)
Theorem transcript_is_last_final (os : Platform) (ms : list Message) (w : World) :
  transcript (receiveAll os ms w)
  = default (transcript w) (last (omap asrText ms)).
Proof.
  induction ms as [|m ms IH] using rev_ind; [done|].
  rewrite receiveAll_snoc, omap_app.
  destruct (listen_fields (AudioStreamClient.handleMessage os m (receiveAll os ms w)))
    as (_ & _ & -> & _).
  rewrite handleMessage_transcript, IH. cbn [omap list_omap].
  destruct (asrText m) as [s|]; cbn [default].
  - by rewrite last_snoc.
  - by rewrite app_nil_r.
Qed.

(** X4. While the playback format is the Int16 one and PCM buffers can
    be allocated, the [tts.audio] chunks of any run of inbound messages
    are scheduled on the player in arrival order, one buffer per chunk,
    after what was scheduled before; chunks whose [data] is missing or is
    not base64 are skipped, and the [started] flag is not touched. *)
Theorem tts_chunks_scheduled_in_order (os : Platform) (ms : list Message)
    (w : World) (f : AVAudioFormat) :
  AudioPlayback.format (playback w) = Some f ->
  int16ChannelData f = true ->
  (forall n, pcmBufferAvailable os n = true) ->
  let p := playback (receiveAll os ms w) in
  AudioPlayback.scheduled (AudioPlayback.player p)
  = AudioPlayback.scheduled (AudioPlayback.player (playback w))
      ++ (AudioPlayback.bindMemory <$> omap ttsChunk ms)
  /\ AudioPlayback.started p = AudioPlayback.started (playback w)
  /\ AudioPlayback.format p = Some f.
Proof.
  intros Hf Hi Ha. cbv zeta.
  induction ms as [|m ms (IH1 & IH2 & IH3)] using rev_ind.
  - by rewrite app_nil_r.
  - rewrite receiveAll_snoc, omap_app, fmap_app.
    destruct (listen_fields (AudioStreamClient.handleMessage os m (receiveAll os ms w)))
      as (_ & _ & _ & -> & _).
    rewrite handleMessage_playback. cbn [omap list_omap].
    destruct (ttsChunk m) as [audioData|]; cbn [option_list fmap list_fmap].
    + rewrite (enqueuePcm_scheduled os audioData _ f IH3 Hi (Ha _)).
      cbn. rewrite IH1, <- app_assoc. done.
    + by rewrite !app_nil_r.
Qed.

Lemma tts_chunks_scheduled_in_order_witness :
  AudioPlayback.scheduled
    (AudioPlayback.player
       (playback (receiveAll ios [ttsAudioMessage; untypedMessage; ttsAudioMessage]
                    processing)))
  = [[1; 2]%Z; [1; 2]%Z].
Proof.
  refine (proj1 (tts_chunks_scheduled_in_order ios
                   [ttsAudioMessage; untypedMessage; ttsAudioMessage]
                   processing pcm16Mono16k _ _ _)); reflexivity.
Defined.

(** X5. Nothing the server sends makes the client send: over any
    run of inbound messages the only calls made on the task are the
    [receive]s that listen for the next message, one per message, and the
    task, the connection flag, the recording flag and the recorder stay
    as they were. *)
Theorem inbound_messages_send_nothing (os : Platform) (ms : list Message) (w : World) :
  let w' := receiveAll os ms w in
  net w' = net w ++ match task w with
                    | Some t => replicate (length ms) (t, receive)
                    | None => []
                    end
  /\ task w' = task w /\ isConnected w' = isConnected w
  /\ isRecording w' = isRecording w /\ recorder w' = recorder w.
Proof.
  cbv zeta. induction ms as [|m ms (IH1 & IH2 & IH3 & IH4 & IH5)] using rev_ind.
  - unfold receiveAll. cbn [foldl length replicate].
    destruct (task w); by rewrite app_nil_r.
  - rewrite receiveAll_snoc.
    destruct (handleMessage_frame os m (receiveAll os ms w))
      as (Hn & Ht & _ & Hc & Hr & Hrec).
    destruct (listen_fields (AudioStreamClient.handleMessage os m (receiveAll os ms w)))
      as (_ & _ & _ & _ & -> & -> & -> & -> & _).
    rewrite Ht, Hc, Hr, Hrec, IH2, IH3, IH4, IH5. repeat split.
    unfold AudioStreamClient.listen. rewrite Ht, IH2.
    destruct (task w) as [t|]; world_simpl; rewrite Hn, IH1.
    + rewrite length_app, Nat.add_comm. cbn [length Nat.add replicate].
      by rewrite replicate_cons_app, app_assoc.
    + done.
Qed.

(** ** What is sent, and when *)

Section Wire.
Import AudioStreamClient.

Lemma bracket_snoc (l : list (URLSessionWebSocketTask * TaskCall))
    (c : URLSessionWebSocketTask * TaskCall) :
  bracket (l ++ [c]) = bracketStep (bracket l) c.
Proof. unfold bracket. by rewrite foldl_snoc. Qed.

Lemma audioStart_type (projectId : string) (avatarId : option string) :
  asString (audioStart projectId avatarId !! "type") = Some "audio.start".
Proof. reflexivity. Qed.

Lemma bracket_start (l : list (URLSessionWebSocketTask * TaskCall))
    (t : URLSessionWebSocketTask) (projectId : string) (avatarId : option string) :
  bracket (l ++ [(t, send_string (audioStart projectId avatarId))])
  = ((bracket l).1, Some t).
Proof.
  rewrite bracket_snoc. unfold bracketStep. cbn [snd fst].
  by rewrite audioStart_type.
Qed.

Lemma bracket_stop (l : list (URLSessionWebSocketTask * TaskCall))
    (t : URLSessionWebSocketTask) :
  bracket (l ++ [(t, send_string {[ "type" := str "audio.stop" ]})])
  = ((bracket l).1, None).
Proof.
  rewrite bracket_snoc. unfold bracketStep. cbn [snd fst].
  by rewrite lookup_singleton_eq.
Qed.

Lemma bracket_other (l : list (URLSessionWebSocketTask * TaskCall))
    (t : URLSessionWebSocketTask) (c : TaskCall) :
  c = resume \/ c = cancel \/ c = receive ->
  bracket (l ++ [(t, c)]) = bracket l.
Proof. rewrite bracket_snoc. by intros [-> | [-> | ->]]. Qed.

Lemma bracket_data (l : list (URLSessionWebSocketTask * TaskCall))
    (t : URLSessionWebSocketTask) (d : Data) :
  (bracket l).2 = Some t ->
  bracket (l ++ [(t, send_data d)]) = bracket l.
Proof.
  intros Ho. rewrite bracket_snoc. unfold bracketStep. cbn [snd fst].
  rewrite Ho, bool_decide_eq_true_2 by done. rewrite andb_true_r.
  rewrite <- Ho. by destruct (bracket l).
Qed.

Lemma invariant_init : invariant init.
Proof. repeat split; intros; done. Qed.

Lemma invariant_stopRecording (w : World) :
  invariant w -> invariant (stopRecording w).
Proof.
  intros Hw. pose proof Hw as (I1 & I2 & I3 & I4 & I5 & I6 & I7).
  unfold stopRecording.
  destruct (task w) as [t|] eqn:Ht; [|done].
  destruct (isRecording w) eqn:Hr; [|done].
  unfold sendJson, invariant. world_simpl. rewrite bracket_stop, Ht.
  repeat split; intros; done.
Qed.

Lemma stopRecording_cases (w : World) :
  invariant w ->
  isRecording (stopRecording w) = false
  /\ task (stopRecording w) = task w
  /\ isConnected (stopRecording w) = isConnected w.
Proof.
  intros (_ & _ & I3 & _). unfold stopRecording.
  destruct (task w) as [t|] eqn:Ht.
  - by destruct (isRecording w) eqn:Hr.
  - destruct (isRecording w) eqn:Hr; [|done].
    destruct (I3 eq_refl) as (t & ? & _). congruence.
Qed.

Lemma invariant_disconnect (w : World) :
  invariant w -> invariant (disconnect w) /\ isRecording (disconnect w) = false.
Proof.
  intros Hw. pose proof (invariant_stopRecording w Hw) as Hs.
  destruct (stopRecording_cases w Hw) as (Hr & _).
  destruct Hs as (I1 & I2 & I3 & I4 & I5 & I6 & I7). unfold disconnect.
  destruct (task (stopRecording w)) as [t|]; unfold invariant; world_simpl;
    rewrite ?bracket_other by auto; rewrite Hr;
    repeat split; intros; try done; try (rewrite <- Hr; by auto).
Qed.

Lemma invariant_connect (url : string) (w : World) :
  invariant w -> invariant (connect url w).
Proof.
  intros Hw. destruct (invariant_disconnect w Hw)
    as ((I1 & I2 & I3 & I4 & I5 & I6 & I7) & Hr).
  unfold connect, listen, invariant. world_simpl.
  rewrite !bracket_other by auto. rewrite Hr.
  repeat split; intros; try done; try (rewrite <- Hr; by auto).
Qed.

Lemma playback_start_cases (os : Platform) (p : AudioPlayback.t) :
  AudioPlayback.started p = AudioPlayback.isRunning p ->
  AudioPlayback.isRunning p = AudioPlayback.isPlaying (AudioPlayback.player p) ->
  let p' := (AudioPlayback.start os p).1 in
  AudioPlayback.started p' = AudioPlayback.isRunning p'
  /\ AudioPlayback.isRunning p'
     = AudioPlayback.isPlaying (AudioPlayback.player p')
  /\ ((AudioPlayback.start os p).2 = None -> AudioPlayback.started p' = true).
Proof.
  intros H1 H2. unfold AudioPlayback.start.
  destruct (AudioPlayback.started p) eqn:Hs.
  - cbn. rewrite Hs. by repeat split.
  - rewrite <- H1. destruct (outputFailure os); cbn; rewrite ?Hs;
      repeat split; congruence.
Qed.

Lemma recorder_start_cases (os : Platform) (r : AudioRecorder.t) :
  AudioRecorder.isRunning r = false ->
  let r' := (AudioRecorder.start os r).1 in
  match (AudioRecorder.start os r).2 with
  | None => AudioRecorder.isRunning r' = true
            /\ AudioRecorder.tapInstalled r' = true
            /\ AudioRecorder.onPcmData r' = true
  | Some _ => AudioRecorder.isRunning r' = false
  end.
Proof.
  intros Hr. unfold AudioRecorder.start.
  destruct (AudioRecorder.targetFormat r); [|done].
  by destruct (inputFailure os).
Qed.

Lemma invariant_startRecording (os : Platform) (projectId : string)
    (avatarId : option string) (w : World) :
  invariant w -> isRecording w = false ->
  invariant (startRecording os projectId avatarId w).
Proof.
  intros Hw Hr. pose proof Hw as (I1 & I2 & I3 & I4 & I5 & I6 & I7).
  unfold startRecording.
  destruct (task w) as [t|] eqn:Ht; [|done].
  assert (Hrun : AudioRecorder.isRunning (recorder w) = false).
  { destruct (AudioRecorder.isRunning (recorder w)); [|done].
    rewrite I2 in Hr; done. }
  pose proof (playback_start_cases os (playback w) I5 I6) as (P1 & P2 & P3).
  pose proof (recorder_start_cases os (recorder w) Hrun) as R.
  unfold sendJson, configureAudioSession.
  destruct (sessionFailure os); world_simpl.
  all: destruct (AudioPlayback.start os (playback w)) as [p [e|]];
    world_simpl;
    [ unfold invariant; world_simpl; rewrite bracket_start, Hr, Ht, Hrun;
      by repeat split |].
  all: destruct (AudioRecorder.start os (recorder w)) as [r [e|]];
    unfold invariant; world_simpl; rewrite bracket_start, ?Hr, ?Ht.
  all: repeat split; intros; try done; try apply R; try (by apply P3);
    try (by eexists); try (rewrite R in *; done).
Qed.

Lemma invariant_handleMessage (os : Platform) (m : Message) (w : World) :
  invariant w -> invariant (handleMessage os m w).
Proof.
  intros (I1 & I2 & I3 & I4 & I5 & I6 & I7).
  destruct (handleMessage_frame os m w) as (Hn & Ht & _ & Hc & Hr & Hrec).
  assert (Hp : let p := playback (handleMessage os m w) in
               AudioPlayback.started p = AudioPlayback.started (playback w)
               /\ AudioPlayback.isRunning p = AudioPlayback.isRunning (playback w)
               /\ AudioPlayback.isPlaying (AudioPlayback.player p)
                  = AudioPlayback.isPlaying (AudioPlayback.player (playback w))).
  { cbv zeta. rewrite handleMessage_playback.
    destruct (ttsChunk m); [|done]. unfold AudioPlayback.enqueuePcm.
    by repeat case_match. }
  destruct Hp as (Hp1 & Hp2 & Hp3).
  unfold invariant. rewrite Hn, Ht, Hc, Hr, Hrec, Hp1, Hp2, Hp3.
  repeat apply conj; (assumption || done).
Qed.

Lemma invariant_step (os : Platform) (e : Event) (w : World) :
  invariant w -> invariant (step os e w).
Proof.
  intros Hw.
  destruct e as [url | pid aid | [err|m] | [err|] | buf]; cbn [step].
  - unfold ContentView.connectButton. destruct (isConnected w).
    + by apply invariant_disconnect.
    + destruct url; [by apply invariant_connect | done].
  - unfold ContentView.recordButton.
    destruct (negb (isConnected w) || ContentView.isEmpty pid); [done|].
    destruct (isRecording w) eqn:Hr.
    + by apply invariant_stopRecording.
    + by apply invariant_startRecording.
  - destruct Hw as (I1 & I2 & I3 & I4 & I5 & I6 & I7).
    unfold receiveCompletion, invariant. world_simpl.
    repeat apply conj; (assumption || done).
  - pose proof (invariant_handleMessage os m w Hw) as Hh.
    unfold receiveCompletion, listen.
    destruct (task (handleMessage os m w)) as [t|] eqn:Ht; [|exact Hh].
    destruct Hh as (I1 & I2 & I3 & I4 & I5 & I6 & I7).
    unfold invariant. world_simpl. rewrite bracket_other by auto.
    repeat apply conj; (assumption || done).
  - destruct Hw as (I1 & I2 & I3 & I4 & I5 & I6 & I7).
    unfold sendCompletion, invariant. world_simpl.
    repeat apply conj; (assumption || done).
  - done.
  - destruct (AudioRecorder.tapInstalled (recorder w)
              && AudioRecorder.isRunning (recorder w)) eqn:Hcap; [|done].
    apply andb_true_iff in Hcap as [_ Hrun].
    pose proof Hw as (I1 & I2 & I3 & I4 & I5 & I6 & I7).
    destruct (I3 (I2 Hrun)) as (t & Ht & Hopen).
    unfold tapBlock, sendBinary. rewrite Ht.
    destruct (AudioRecorder.handleBuffer os buf (recorder w)) as [d|];
      [|exact Hw].
    unfold invariant. world_simpl. rewrite bracket_data by done.
    repeat apply conj; (assumption || done).
Qed.

Lemma invariant_play (l : list (Platform * Event)) (w : World) :
  invariant w -> invariant (play l w).
Proof.
  revert w. induction l as [|[os e] l IH]; intros w Hw; [done|].
  unfold play in *. cbn [foldl]. apply IH. by apply invariant_step.
Qed.

End Wire.

(** X6. Whatever the user taps and whatever the callbacks deliver,
    starting from the initial state, every binary frame is sent on a task
    on which an [audio.start] was sent before it, with no [audio.stop]
    sent in between. *)
Theorem binary_frames_between_start_and_stop (l : list (Platform * Event)) :
  (bracket (net (play l AudioStreamClient.init))).1 = true.
Proof. apply (invariant_play l _ invariant_init). Qed.

(** X7. In every state reachable from the initial one: a session
    marked connected has a task; the recorder's engine runs exactly while
    [isRecording] is set; and while it is set there is a task, the tap is
    installed with the client's closure, and playback is started. *)
Theorem reachable_states_are_coherent (l : list (Platform * Event)) :
  let w := play l AudioStreamClient.init in
  (isConnected w = true -> is_Some (task w))
  /\ (AudioRecorder.isRunning (recorder w) = true <-> isRecording w = true)
  /\ (isRecording w = true ->
      is_Some (task w)
      /\ AudioRecorder.tapInstalled (recorder w) = true
      /\ AudioRecorder.onPcmData (recorder w) = true
      /\ AudioPlayback.started (playback w) = true).
Proof.
  cbv zeta.
  destruct (invariant_play l _ invariant_init) as (_ & I2 & I3 & I4 & _ & _ & I7).
  split; [exact I4|]. split.
  - split; [exact I2 | intros H; by apply I7].
  - intros H. destruct (I3 H) as (t & -> & _). destruct (I7 H) as (_ & ? & ? & ?).
    by repeat split.
Qed.

(** X8. From every reachable state [disconnect()] leads to a
    state without a task, marked neither connected nor recording, with
    status "Disconnected", in which the recorder's engine does not run. *)
Theorem disconnect_stops_capture (l : list (Platform * Event)) :
  let w := AudioStreamClient.disconnect (play l AudioStreamClient.init) in
  task w = None /\ isConnected w = false /\ isRecording w = false
  /\ status w = "Disconnected"
  /\ AudioRecorder.isRunning (recorder w) = false.
Proof.
  cbv zeta.
  destruct (invariant_disconnect _ (invariant_play l _ invariant_init))
    as ((_ & I2 & _) & Hr).
  split; [|split; [|split; [exact Hr|split]]].
  - unfold AudioStreamClient.disconnect. by case_match.
  - unfold AudioStreamClient.disconnect. by case_match.
  - unfold AudioStreamClient.disconnect. by case_match.
  - destruct (AudioRecorder.isRunning _) eqn:Hrun; [|done].
    rewrite I2 in Hr; done.
Qed.

(** ** Capture *)

Lemma run_snoc (os : Platform) (es : list Event) (e : Event) (w : World) :
  run os (es ++ [e]) w = step os e (run os es w).
Proof. unfold run. by rewrite foldl_snoc. Qed.

Lemma handleBuffer_converting (os : Platform) (b : AudioRecorder.TapBuffer)
    (r : AudioRecorder.t) :
  converting r ->
  pcmBufferAvailable os (AudioRecorder.frameCapacity b) = true ->
  AudioRecorder.handleBuffer os b r = pcm16Data <$> AudioRecorder.conversion b.
Proof.
  intros (Hc & Ho & f & Hf & Hi) Ha. unfold AudioRecorder.handleBuffer.
  rewrite Hc, Hf, Ha, Hi, Ho. by destruct (AudioRecorder.conversion b).
Qed.

(** X9. While a task exists and the tap sits on a running engine
    with a working converter, the buffers the tap delivers are sent as
    binary frames on that task in the order captured, each as the
    canonical bytes of its conversion; a buffer whose conversion fails is
    skipped, none is sent twice, and nothing else is sent. *)
Theorem captured_buffers_sent_in_order (os : Platform)
    (bufs : list AudioRecorder.TapBuffer) (w : World)
    (t : URLSessionWebSocketTask) :
  task w = Some t ->
  AudioRecorder.tapInstalled (recorder w) = true ->
  AudioRecorder.isRunning (recorder w) = true ->
  converting (recorder w) ->
  (forall n, pcmBufferAvailable os n = true) ->
  let w' := run os (captured <$> bufs) w in
  net w' = net w ++ ((fun d => (t, send_data d))
                       <$> omap (fun b => pcm16Data <$> AudioRecorder.conversion b) bufs)
  /\ task w' = Some t /\ recorder w' = recorder w /\ status w' = status w.
Proof.
  intros Ht Htap Hrun Hconv Ha. cbv zeta.
  induction bufs as [|b bufs (IH1 & IH2 & IH3 & IH4)] using rev_ind.
  - by rewrite app_nil_r.
  - rewrite fmap_app. change (captured <$> [b]) with [captured b].
    rewrite run_snoc, omap_app, fmap_app. cbn [step].
    rewrite IH3, Htap, Hrun. cbn [andb].
    unfold AudioStreamClient.tapBlock. rewrite IH3.
    rewrite handleBuffer_converting by done. cbn [omap list_omap].
    destruct (AudioRecorder.conversion b) as [frames|];
      cbn [fmap option_fmap option_map option_list list_fmap].
    + unfold AudioStreamClient.sendBinary. rewrite IH2. world_simpl.
      rewrite IH1, <- app_assoc. done.
    + by rewrite !app_nil_r.
Qed.

Lemma captured_buffers_sent_in_order_witness :
  net (run ios (captured <$> [goodBuffer; badBuffer; goodBuffer]) streaming)
  = net streaming
      ++ [({| url := endpoint |}, send_data ["001"; "000"; "254"; "255"]%byte);
          ({| url := endpoint |}, send_data ["001"; "000"; "254"; "255"]%byte)].
Proof.
  refine (proj1 (captured_buffers_sent_in_order ios
                   [goodBuffer; badBuffer; goodBuffer] streaming
                   {| url := endpoint |} _ _ _ _ _)); try reflexivity.
  repeat split. by exists pcm16Mono16k.
Defined.

(** X10. If no converter can be made for the input format, the
    recorder still starts, but every buffer its tap delivers is dropped:
    nothing is ever handed to the client. *)
Theorem recorder_without_converter_is_mute (os os' : Platform)
    (r : AudioRecorder.t) (b : AudioRecorder.TapBuffer) :
  converterAvailable os = false ->
  AudioRecorder.handleBuffer os' b (AudioRecorder.start os r).1 = None
  /\ (inputFailure os = None -> is_Some (AudioRecorder.targetFormat r) ->
      (AudioRecorder.start os r).2 = None
      /\ AudioRecorder.isRunning (AudioRecorder.start os r).1 = true).
Proof.
  intros Hc. unfold AudioRecorder.start, AudioRecorder.handleBuffer.
  destruct (AudioRecorder.targetFormat r) as [f|] eqn:Hf.
  - split.
    + destruct (inputFailure os); cbn; by rewrite Hc.
    + by intros -> _.
  - split; [|by intros _ [? ?]]. cbn. by case_match.
Qed.

Lemma recorder_without_converter_is_mute_witness :
  AudioRecorder.handleBuffer ios goodBuffer
    (AudioRecorder.start iosNoConverter AudioRecorder.init).1 = None.
Proof.
  exact (proj1 (recorder_without_converter_is_mute iosNoConverter ios
                  AudioRecorder.init goodBuffer eq_refl)).
Defined.

(** ** Without a task *)

Lemma step_without_task (os : Platform) (e : Event) (w : World) :
  task w = None -> (forall u, e <> tapConnect (Some u)) ->
  let w' := step os e w in
  net w' = net w /\ task w' = None /\ isRecording w' = isRecording w
  /\ recorder w' = recorder w.
Proof.
  intros Ht Hne. cbv zeta.
  destruct e as [[u|] | pid aid | [err|m] | [err|] | buf]; cbn [step].
  - by destruct (Hne u).
  - unfold ContentView.connectButton, AudioStreamClient.disconnect,
      AudioStreamClient.stopRecording.
    destruct (isConnected w); rewrite ?Ht; world_simpl; by rewrite ?Ht.
  - unfold ContentView.recordButton, AudioStreamClient.stopRecording,
      AudioStreamClient.startRecording.
    rewrite Ht. by repeat case_match.
  - done.
  - destruct (handleMessage_frame os m w) as (Hn & Htk & _ & _ & Hr & Hrec).
    unfold AudioStreamClient.receiveCompletion, AudioStreamClient.listen.
    rewrite Htk, Ht. by rewrite Hn, Htk, Hr, Hrec.
  - done.
  - done.
  - unfold AudioStreamClient.tapBlock, AudioStreamClient.sendBinary.
    rewrite Ht. by repeat case_match.
Qed.

(** X11. A client without a task (before the first connect, or after
    a disconnect) sends nothing, starts no recording and acquires no task,
    whatever is tapped or delivered, until Connect is tapped with a valid
    URL. *)
Theorem silent_without_task (l : list (Platform * Event)) (w : World) :
  task w = None ->
  (forall os u, (os, tapConnect (Some u)) ∉ l) ->
  let w' := play l w in
  net w' = net w /\ task w' = None /\ isRecording w' = isRecording w
  /\ recorder w' = recorder w.
Proof.
  cbv zeta. revert w. induction l as [|[os e] l IH]; intros w Ht Hl; [done|].
  unfold play in *. cbn [foldl fst snd].
  destruct (step_without_task os e w Ht) as (Hn & Htk & Hr & Hrec).
  { intros u ->. apply (Hl os u). left. }
  rewrite <- Hn, <- Hr, <- Hrec. apply IH; [done|].
  intros os' u Hin. apply (Hl os' u). by right.
Qed.

Lemma silent_without_task_witness :
  net (play [(ios, tapRecord "p1" "");
             (ios, received (AudioStreamClient.success ttsAudioMessage));
             (ios, captured goodBuffer); (ios, tapConnect None)]
         AudioStreamClient.init) = [].
Proof.
  refine (proj1 (silent_without_task _ AudioStreamClient.init eq_refl _)).
  intros os u Hin.
  repeat (apply elem_of_cons in Hin as [Hin|Hin]; [discriminate|]).
  by apply elem_of_nil in Hin.
Defined.

(** ** startRecording, stopRecording, disconnect, connect *)

(** X12. Once there is a task, [startRecording] sends exactly one
    frame, the [audio.start] message, whether or not the audio then
    starts, and clears both texts.  If playback cannot start, the recorder
    is not touched, [isRecording] keeps its value and the status names the
    cause. *)
Theorem startRecording_sends_one_start (os : Platform) (projectId : string)
    (avatarId : option string) (w : World) (t : URLSessionWebSocketTask) :
  task w = Some t ->
  let w' := AudioStreamClient.startRecording os projectId avatarId w in
  net w' = net w ++ [(t, send_string (AudioStreamClient.audioStart projectId avatarId))]
  /\ transcript w' = "" /\ assistantText w' = "" /\ task w' = Some t
  /\ (forall e, (AudioPlayback.start os (playback w)).2 = Some e ->
        recorder w' = recorder w /\ isRecording w' = isRecording w
        /\ status w' = "Audio start failed: " +:+ e).
Proof.
  intros Ht. cbv zeta. unfold AudioStreamClient.startRecording.
  rewrite Ht. unfold AudioStreamClient.sendJson,
    AudioStreamClient.configureAudioSession.
  destruct (sessionFailure os); world_simpl.
  all: destruct (AudioPlayback.start os (playback w)) as [p [e|]]; world_simpl.
  all: try destruct (AudioRecorder.start os (recorder w)) as [r [e'|]];
    world_simpl.
  all: repeat apply conj; try done.
  all: by intros ? [= <-].
Qed.

Lemma startRecording_sends_one_start_witness :
  let w := AudioStreamClient.connect endpoint AudioStreamClient.init in
  length (net (AudioStreamClient.startRecording iosNoMic "p1" None w))
  = S (length (net w)).
Proof.
  intros w.
  rewrite (proj1 (startRecording_sends_one_start iosNoMic "p1" None w
                    {| url := endpoint |} eq_refl)).
  rewrite length_app. cbn [length]. lia.
Defined.

(** X13. [stopRecording] and [disconnect] are idempotent; a
    [stopRecording] before [disconnect], and a [disconnect] before
    [connect], change nothing of the result. *)
Theorem teardown_composes (url : string) (w : World) :
  AudioStreamClient.stopRecording (AudioStreamClient.stopRecording w)
  = AudioStreamClient.stopRecording w
  /\ AudioStreamClient.disconnect (AudioStreamClient.disconnect w)
     = AudioStreamClient.disconnect w
  /\ AudioStreamClient.disconnect (AudioStreamClient.stopRecording w)
     = AudioStreamClient.disconnect w
  /\ AudioStreamClient.connect url (AudioStreamClient.disconnect w)
     = AudioStreamClient.connect url w.
Proof.
  assert (H : AudioStreamClient.stopRecording (AudioStreamClient.stopRecording w)
              = AudioStreamClient.stopRecording w).
  { unfold AudioStreamClient.stopRecording at 1.
    unfold AudioStreamClient.stopRecording.
    destruct (task w) as [t|] eqn:Ht; [|by rewrite Ht].
    destruct (isRecording w) eqn:Hr; world_simpl; rewrite ?Ht, ?Hr;
      world_simpl; try case_match; done. }
  split; [exact H|]. split; [apply disconnect_idempotent|]. split.
  - unfold AudioStreamClient.disconnect. by rewrite H.
  - unfold AudioStreamClient.connect. by rewrite disconnect_idempotent.
Qed.

(** ** AudioPlayback: start and stop *)

(** X14. [start()] run twice is [start()] run once, with the same
    outcome; it keeps what was scheduled; and [stop()] after it leaves
    the pipeline as [stop()] alone does, with nothing scheduled. *)
Theorem playback_start_stop (os : Platform) (p : AudioPlayback.t) :
  AudioPlayback.start os (AudioPlayback.start os p).1 = AudioPlayback.start os p
  /\ AudioPlayback.scheduled (AudioPlayback.player (AudioPlayback.start os p).1)
     = AudioPlayback.scheduled (AudioPlayback.player p)
  /\ AudioPlayback.stop (AudioPlayback.start os p).1 = AudioPlayback.stop p
  /\ AudioPlayback.scheduled (AudioPlayback.player (AudioPlayback.stop p)) = [].
Proof.
  unfold AudioPlayback.start.
  destruct (AudioPlayback.started p) eqn:Hs; cbn; rewrite ?Hs; [done|].
  destruct (AudioPlayback.isRunning p) eqn:Hr; cbn; rewrite ?Hs, ?Hr; [done|].
  destruct (outputFailure os) eqn:Ho; cbn; by rewrite ?Hs, ?Hr, ?Ho.
Qed.

(** ** runtimeConfig.js *)

Section Config.
Import RuntimeConfig.

Lemma dropWhile_head (p : N -> bool) (s : list N) (c : N) :
  head (dropWhile p s) = Some c -> p c = false.
Proof.
  induction s as [|a s IH]; [done|]. cbn [dropWhile].
  destruct (p a) eqn:Hp; [done|]. by intros [= <-].
Qed.

Lemma dropWhileEnd_last (p : N -> bool) (s : list N) (c : N) :
  last (dropWhileEnd p s) = Some c -> p c = false.
Proof. unfold dropWhileEnd. rewrite last_reverse. apply dropWhile_head. Qed.

Lemma dropWhile_suffix (p : N -> bool) (s : list N) :
  exists k, s = k ++ dropWhile p s.
Proof.
  induction s as [|a s [k IH]]; [by exists []|]. cbn [dropWhile].
  destruct (p a); [|by exists []]. exists (a :: k). by rewrite <- app_comm_cons, <- IH.
Qed.

Lemma dropWhileEnd_prefix (p : N -> bool) (s : list N) :
  exists k, s = dropWhileEnd p s ++ k.
Proof.
  unfold dropWhileEnd. destruct (dropWhile_suffix p (reverse s)) as [k Hk].
  exists (reverse k). rewrite <- reverse_app, <- Hk. by rewrite reverse_involutive.
Qed.

Lemma dropWhile_id (p : N -> bool) (s : list N) :
  (forall c, head s = Some c -> p c = false) -> dropWhile p s = s.
Proof.
  destruct s as [|a s]; [done|]. intros H. cbn [dropWhile].
  by rewrite (H a eq_refl).
Qed.

Lemma dropWhileEnd_id (p : N -> bool) (s : list N) :
  (forall c, last s = Some c -> p c = false) -> dropWhileEnd p s = s.
Proof.
  intros H. unfold dropWhileEnd. rewrite dropWhile_id.
  - apply reverse_involutive.
  - intros c Hc. apply H. by rewrite <- (reverse_involutive s), last_reverse.
Qed.

Lemma head_prefix (s r k : list N) (c : N) :
  s = r ++ k -> head r = Some c -> head s = Some c.
Proof. intros -> Hr. by destruct r. Qed.

Lemma normalizeApiBase_shape (value : JSValue) :
  last (normalizeApiBase value) <> Some 47%N
  /\ (forall c, head (normalizeApiBase value) = Some c -> isWhiteSpace c = false).
Proof.
  unfold normalizeApiBase. destruct value as [| | | |s|]; try done.
  destruct (trim s) as [|a t] eqn:Ht; [done|]. rewrite <- Ht. split.
  - intros Hl. by apply dropWhileEnd_last in Hl.
  - intros c Hc.
    destruct (dropWhileEnd_prefix isSlash (trim s)) as [k1 Hk1].
    pose proof (head_prefix _ _ _ c Hk1 Hc) as H1. unfold trim in H1.
    destruct (dropWhileEnd_prefix isWhiteSpace (dropWhile isWhiteSpace s))
      as [k2 Hk2].
    pose proof (head_prefix _ _ _ c Hk2 H1) as H2.
    by apply dropWhile_head in H2.
Qed.

End Config.

(** X15. [normalizeApiBase] never returns a string that ends in a
    slash or begins with white space; anything that is not a string gives
    the empty string; and a string that is not empty, has no white space
    at either end and no slash at its end is returned as it is. *)
Theorem normalizeApiBase_normal (value : RuntimeConfig.JSValue) :
  last (RuntimeConfig.normalizeApiBase value) <> Some 47%N
  /\ (forall c, head (RuntimeConfig.normalizeApiBase value) = Some c ->
        RuntimeConfig.isWhiteSpace c = false)
  /\ ((forall s, value <> RuntimeConfig.JSStr s) ->
      RuntimeConfig.normalizeApiBase value = [])
  /\ (forall s, value = RuntimeConfig.JSStr s ->
        (forall c, head s = Some c -> RuntimeConfig.isWhiteSpace c = false) ->
        (forall c, last s = Some c ->
           RuntimeConfig.isWhiteSpace c = false /\ c <> 47%N) ->
        RuntimeConfig.normalizeApiBase value = s).
Proof.
  destruct (normalizeApiBase_shape value) as [H1 H2].
  split; [exact H1|]. split; [exact H2|]. split.
  - intros Hns. destruct value; try done. by destruct (Hns s).
  - intros s -> Hh Hl. unfold RuntimeConfig.normalizeApiBase, RuntimeConfig.trim.
    rewrite (dropWhile_id _ s Hh).
    rewrite (dropWhileEnd_id RuntimeConfig.isWhiteSpace s)
      by (intros c Hc; by apply Hl).
    destruct s as [|a s]; [done|]. apply dropWhileEnd_id.
    intros c Hc. destruct (Hl c Hc) as [_ Hne]. unfold RuntimeConfig.isSlash.
    by apply N.eqb_neq.
Qed.

(** X16. Whatever the configuration file and the environment hold,
    the API base [loadRuntimeConfig] resolves to is not empty and does not
    end in a slash.  The environment's value wins when it normalises to a
    non-empty string.  Otherwise the file's value is taken, when the
    response is ok, its body is an object and that object's [apiBase]
    normalises to a non-empty string; and in every other case (the fetch
    threw, the response is not ok, the body did not parse or is no
    object, or its [apiBase] normalises to the empty string) the result
    is the default. *)
Theorem loadRuntimeConfig_apiBase (file : option RuntimeConfig.Fetched)
    (env : RuntimeConfig.JSValue) :
  let apiBase := RuntimeConfig.loadRuntimeConfig file env in
  let usable v :=
    file = Some {| RuntimeConfig.ok := true;
                   RuntimeConfig.json := Some (RuntimeConfig.JSObj v) |} in
  apiBase <> []
  /\ last apiBase <> Some 47%N
  /\ (RuntimeConfig.normalizeApiBase env <> [] ->
      apiBase = RuntimeConfig.normalizeApiBase env)
  /\ (RuntimeConfig.normalizeApiBase env = [] ->
      (forall v, usable v -> RuntimeConfig.normalizeApiBase v <> [] ->
         apiBase = RuntimeConfig.normalizeApiBase v)
      /\ ((forall v, usable v -> RuntimeConfig.normalizeApiBase v = []) ->
          apiBase = RuntimeConfig.DEFAULT_API_BASE)).
Proof.
  cbv zeta. unfold RuntimeConfig.loadRuntimeConfig, RuntimeConfig.orElse.
  pose proof (normalizeApiBase_shape env) as [He _].
  destruct (RuntimeConfig.normalizeApiBase env) as [|a e] eqn:Henv;
    [|by repeat split].
  assert (Hd : RuntimeConfig.DEFAULT_API_BASE <> []
               /\ last RuntimeConfig.DEFAULT_API_BASE <> Some 47%N)
    by (split; by vm_compute).
  destruct file as [[o j]|]; cbn [RuntimeConfig.ok RuntimeConfig.json].
  2: { repeat split; try apply Hd; try done. }
  destruct o.
  2: { repeat split; try apply Hd; try done. }
  destruct j as [payload|].
  2: { repeat split; try apply Hd; try done. }
  destruct payload as [| | | | |v];
    try (repeat split; try apply Hd; done).
  pose proof (normalizeApiBase_shape v) as [Hv _].
  destruct (RuntimeConfig.normalizeApiBase v) as [|b f] eqn:Hfile.
  - repeat split; try apply Hd; try done.
    intros v' [= <-] Hne. by rewrite Hfile in Hne.
  - repeat split; try done.
    + intros v' [= <-] _. by rewrite Hfile.
    + intros Hall. specialize (Hall v eq_refl). by rewrite Hfile in Hall.
Qed.

(** ** main.js: framing of the streamed reply *)

Section Framing.
Import RuntimeConfig ChatStream.

Lemma splitBlank_nonempty (s : list N) : splitBlank s <> [].
Proof.
  destruct s as [|c [|d rest]]; cbn [splitBlank]; try done.
  - destruct (c =? 10)%N; done.
  - destruct (c =? 10)%N; [destruct (d =? 10)%N|]; try done.
    all: unfold consHead; by case_match.
Qed.

Lemma removelast_consHead (c : N) (parts : list (list N)) :
  parts <> [] ->
  removelast (consHead c parts)
  = match removelast parts with
    | [] => []
    | _ => consHead c (removelast parts)
    end.
Proof. destruct parts as [|p [|q ps]]; done. Qed.

Lemma popped_consHead (c : N) (parts : list (list N)) :
  parts <> [] ->
  popped (consHead c parts)
  = match removelast parts with
    | [] => c :: popped parts
    | _ => popped parts
    end.
Proof.
  by destruct parts as [|p [|q ps]].
Qed.

Lemma splitBlank_ordinary (c : N) (rest : list N) :
  (c =? 10)%N = false -> splitBlank (c :: rest) = consHead c (splitBlank rest).
Proof. intros Hc. cbn [splitBlank]. by rewrite Hc. Qed.

Lemma splitBlank_newline (c : N) (rest : list N) :
  (forall d rest', rest = d :: rest' -> (d =? 10)%N = false) ->
  splitBlank (c :: rest) = consHead c (splitBlank rest).
Proof.
  intros Hd. cbn [splitBlank]. destruct (c =? 10)%N; [|done].
  destruct rest as [|d rest']; [done|]. by rewrite (Hd d rest' eq_refl).
Qed.

Lemma splitBlank_blank (c d : N) (rest : list N) :
  (c =? 10)%N = true -> (d =? 10)%N = true ->
  splitBlank (c :: d :: rest) = [] :: splitBlank rest.
Proof. intros Hc Hd. cbn [splitBlank]. by rewrite Hc, Hd. Qed.

(** Splitting a string met in two pieces: split the first, keep what
    follows its last blank line, and go on from there with the second. *)
Lemma splitBlank_app (a b : list N) :
  splitBlank (a ++ b)
  = removelast (splitBlank a) ++ splitBlank (popped (splitBlank a) ++ b).
Proof.
  remember (length a) as n eqn:Hn. revert a Hn.
  induction n as [n IH] using lt_wf_ind. intros a Hn.
  destruct a as [|c rest]; [done|].
  pose proof (splitBlank_nonempty rest) as Hne.
  pose proof (IH (length rest) ltac:(cbn in Hn; lia) rest eq_refl) as IHrest.
  destruct (c =? 10)%N eqn:Hc; cycle 1.
  - (* an ordinary character *)
    rewrite <- app_comm_cons, !splitBlank_ordinary, IHrest by done.
    rewrite removelast_consHead, popped_consHead by done.
    destruct (removelast (splitBlank rest)) as [|p ps] eqn:Hrl; [|done].
    cbn [app]. by rewrite splitBlank_ordinary.
  - destruct rest as [|d rest'].
    + (* a lone newline at the end of the first piece *)
      by rewrite (splitBlank_newline c []).
    + destruct (d =? 10)%N eqn:Hd.
      * (* a blank line *)
        rewrite <- !app_comm_cons, !splitBlank_blank by done.
        pose proof (splitBlank_nonempty rest') as Hne'.
        rewrite (IH (length rest') ltac:(cbn in Hn; lia) rest' eq_refl).
        destruct (splitBlank rest') as [|p ps] eqn:Hs; [by destruct Hne'|].
        unfold popped. by rewrite last_cons_cons.
      * (* a newline followed by something else *)
        rewrite (splitBlank_newline c (d :: rest'))
          by (by intros ? ? [= <- <-]).
        rewrite <- app_comm_cons.
        rewrite (splitBlank_newline c ((d :: rest') ++ b))
          by (by intros ? ? [= <- <-]).
        rewrite IHrest, removelast_consHead, popped_consHead by done.
        destruct (removelast (splitBlank (d :: rest'))) as [|p ps] eqn:Hrl;
          [|done].
        assert (Hq : exists q, popped (splitBlank (d :: rest')) = d :: q).
        { revert Hrl. rewrite splitBlank_ordinary by done.
          pose proof (splitBlank_nonempty rest').
          destruct (splitBlank rest') as [|q [|q' qs]]; try done. by exists q. }
        destruct Hq as [q ->]. cbn [app].
        by rewrite (splitBlank_newline c (d :: q ++ b))
          by (by intros ? ? [= <- <-]).
Qed.

Lemma removelast_app_nonempty {A} (l k : list A) :
  k <> [] -> removelast (l ++ k) = l ++ removelast k.
Proof. intros Hk. by apply List.removelast_app. Qed.

Lemma popped_app (l k : list (list N)) :
  k <> [] -> popped (l ++ k) = popped k.
Proof.
  intros Hk. unfold popped. rewrite last_app.
  destruct (last k) eqn:Hl; [done|]. by apply last_None in Hl.
Qed.

Lemma streamResponse_snoc (chunks : list (list N)) (chunk : list N) :
  streamResponse (chunks ++ [chunk]) = onChunk (streamResponse chunks) chunk.
Proof. unfold streamResponse. by rewrite foldl_snoc. Qed.

End Framing.

(** X17. However the network cuts the reply into chunks, the loop of
    [streamResponse] hands to [JSON.parse] the same texts in the same
    order: the payloads of the [data:] lines of every part of the whole
    stream that is closed by a blank line.  What follows the last blank
    line is still in [buffer] when the stream ends, and is not parsed. *)
Theorem streamResponse_chunking (chunks : list (list N)) :
  let whole := ChatStream.splitBlank (mjoin chunks) in
  ChatStream.parsed (ChatStream.streamResponse chunks)
  = mjoin (ChatStream.partPayloads <$> removelast whole)
  /\ ChatStream.buffer (ChatStream.streamResponse chunks) = ChatStream.popped whole.
Proof.
  cbv zeta. induction chunks as [|chunk chunks [IH1 IH2]] using rev_ind; [done|].
  rewrite streamResponse_snoc. unfold ChatStream.onChunk.
  cbn [ChatStream.parsed ChatStream.buffer].
  rewrite IH1, IH2. rewrite (join_app chunks [chunk]). cbn [mjoin list_join].
  rewrite app_nil_r.
  rewrite (splitBlank_app (mjoin chunks) chunk).
  pose proof (splitBlank_nonempty
                (ChatStream.popped (ChatStream.splitBlank (mjoin chunks)) ++ chunk)).
  rewrite removelast_app_nonempty, popped_app by done.
  by rewrite fmap_app, join_app.
Qed.

(** ** Messages the switch has no case for *)

(** X18. A message whose [type] is none of the eight the switch
    handles, [asr.start] among them, changes nothing at all. *)
Theorem unhandled_type_ignored (os : Platform) (m : Message)
    (d : gmap string Any) (type : string) (w : World) :
  payloadOf m = Some (object d) ->
  asString (d !! "type") = Some type ->
  type ∉ handledTypes ->
  AudioStreamClient.handleMessage os m w = w.
Proof.
  intros Hm Ht Hn. rewrite handleMessage_payloadOf, Hm.
  unfold AudioStreamClient.handleJson. rewrite Ht.
  repeat case_decide; subst; try done.
  all: exfalso; apply Hn; unfold handledTypes; set_solver.
Qed.

Lemma unhandled_type_ignored_witness :
  AudioStreamClient.handleMessage ios asrStartMessage streaming = streaming.
Proof.
  refine (unhandled_type_ignored ios asrStartMessage _ "asr.start" streaming
            eq_refl eq_refl _).
  unfold handledTypes. intros Hin.
  repeat (apply elem_of_cons in Hin as [Hin|Hin]; [discriminate|]).
  by apply elem_of_nil in Hin.
Defined.

(** ** Instances of the properties above *)

Lemma reachable_states_are_coherent_witness :
  let w := play [(ios, tapConnect (Some endpoint)); (ios, tapRecord "p1" "")]
             AudioStreamClient.init in
  isRecording w = true
  /\ AudioRecorder.tapInstalled (recorder w) = true
  /\ AudioPlayback.started (playback w) = true.
Proof.
  intros w.
  assert (Hr : isRecording w = true) by (vm_compute; reflexivity).
  pose proof (reachable_states_are_coherent
                [(ios, tapConnect (Some endpoint)); (ios, tapRecord "p1" "")])
    as (_ & _ & H).
  destruct (H Hr) as (_ & Htap & _ & Hpb).
  split; [exact Hr|]. split; [exact Htap | exact Hpb].
Defined.

Lemma normalizeApiBase_normal_witness :
  RuntimeConfig.normalizeApiBase
    (RuntimeConfig.JSStr (RuntimeConfig.js "http://localhost:8000"))
  = RuntimeConfig.js "http://localhost:8000".
Proof.
  refine (proj2 (proj2 (proj2 (normalizeApiBase_normal _))) _ eq_refl _ _).
  - intros c [= <-]. reflexivity.
  - intros c [= <-]. split; [reflexivity | discriminate].
Defined.

Lemma loadRuntimeConfig_apiBase_witness :
  RuntimeConfig.loadRuntimeConfig None
    (RuntimeConfig.JSStr (RuntimeConfig.js " https://api.example.com// "))
  = RuntimeConfig.js "https://api.example.com"
  /\ RuntimeConfig.loadRuntimeConfig
       (Some {| RuntimeConfig.ok := true;
                RuntimeConfig.json :=
                  Some (RuntimeConfig.JSObj
                          (RuntimeConfig.JSStr (RuntimeConfig.js "http://file:9000/"))) |})
       RuntimeConfig.JSUndefined
     = RuntimeConfig.js "http://file:9000"
  /\ RuntimeConfig.loadRuntimeConfig
       (Some {| RuntimeConfig.ok := true;
                RuntimeConfig.json :=
                  Some (RuntimeConfig.JSObj (RuntimeConfig.JSStr (RuntimeConfig.js " // "))) |})
       (RuntimeConfig.JSStr (RuntimeConfig.js "  "))
     = RuntimeConfig.DEFAULT_API_BASE.
Proof.
  split; [|split].
  - refine (proj1 (proj2 (proj2 (loadRuntimeConfig_apiBase None _))) _).
    discriminate.
  - refine (proj1 (proj2 (proj2 (proj2
              (loadRuntimeConfig_apiBase
                 (Some {| RuntimeConfig.ok := true;
                          RuntimeConfig.json :=
                            Some (RuntimeConfig.JSObj
                                    (RuntimeConfig.JSStr
                                       (RuntimeConfig.js "http://file:9000/"))) |})
                 RuntimeConfig.JSUndefined))) eq_refl) _ eq_refl _).
    discriminate.
  - refine (proj2 (proj2 (proj2 (proj2
              (loadRuntimeConfig_apiBase
                 (Some {| RuntimeConfig.ok := true;
                          RuntimeConfig.json :=
                            Some (RuntimeConfig.JSObj
                                    (RuntimeConfig.JSStr (RuntimeConfig.js " // "))) |})
                 (RuntimeConfig.JSStr (RuntimeConfig.js "  "))))) eq_refl) _).
    intros v [= <-]. reflexivity.
Defined.
